(** * pdqa: data-quality checks over tabular data

    A shallow embedding of the three modules of the package:
    - [logging/__init__.py]: [make_log_msg];
    - [__init__.py]: [FailSampler] and the [DataFrameInspector] base class;
    - [singledf.py]: the five check functions and their inspector classes.

    Python values are modelled by [value]; a pandas DataFrame by a list of
    column labels and a list of rows.  What differs between versions of
    pandas or lies outside the package (the random draw, the clock, the
    file system, the text [astype(str)] gives a missing cell, the
    closeness test of numpy) is a variable of the sections below.  A call
    of a check function yields the trace of what it sent to its
    collaborators (logger, standard output, fail sampler, csv file)
    together with its return value or the exception it raised. *)

From Stdlib Require Import List String Ascii ZArith Lia Bool Arith.
From Stdlib Require Import DecimalString.
Import ListNotations.

Local Open Scope list_scope.
Local Open Scope string_scope.

(** ** Python strings and truthiness *)

(** [str(n)] for a non-negative count. *)
Definition str_nat (n : nat) : string :=
  NilZero.string_of_uint (Nat.to_uint n).

(** [str(z)] for an [int]. *)
Definition str_Z (z : Z) : string :=
  NilZero.string_of_int (Z.to_int z).

(** Truthiness of an optional string: [None] and [''] are falsy. *)
Definition truthy (o : option string) : bool :=
  match o with
  | None => false
  | Some s => negb (s =? "")
  end.

(** [x or default], for an optional string [x]. *)
Definition py_or (o : option string) (default : string) : string :=
  match o with
  | Some s => if s =? "" then default else s
  | None => default
  end.

(** [str.lower()] on ASCII text. *)
Definition lower_ascii (c : ascii) : ascii :=
  let n := nat_of_ascii c in
  if andb (65 <=? n)%nat (n <=? 90)%nat then ascii_of_nat (n + 32) else c.

Fixpoint lower (s : string) : string :=
  match s with
  | EmptyString => EmptyString
  | String c r => String (lower_ascii c) (lower r)
  end.

(** [repr(s)] of a [str]: single quotes unless the text holds a single
    quote and no double quote; backslash, the chosen quote, newline,
    carriage return and tab are escaped.  Other control characters and
    non-ASCII text are outside the model. *)
Fixpoint has_char (c : ascii) (s : string) : bool :=
  match s with
  | EmptyString => false
  | String d r => if Ascii.eqb c d then true else has_char c r
  end.

Definition squote : ascii := ascii_of_nat 39.
Definition dquote : ascii := ascii_of_nat 34.
Definition backslash : ascii := ascii_of_nat 92.

Fixpoint repr_body (q : ascii) (s : string) : string :=
  match s with
  | EmptyString => EmptyString
  | String c r =>
      let rest := repr_body q r in
      if Ascii.eqb c backslash then String backslash (String backslash rest)
      else if Ascii.eqb c q then String backslash (String q rest)
      else if Ascii.eqb c (ascii_of_nat 10) then String backslash (String "n" rest)
      else if Ascii.eqb c (ascii_of_nat 13) then String backslash (String "r" rest)
      else if Ascii.eqb c (ascii_of_nat 9) then String backslash (String "t" rest)
      else String c rest
  end.

Definition repr_str (s : string) : string :=
  let q := if andb (has_char squote s) (negb (has_char dquote s))
           then dquote else squote in
  String q (repr_body q s ++ String q EmptyString).

(** [str(l)] of a list of [str]. *)
Definition str_list (l : list string) : string :=
  "[" ++ String.concat ", " (map repr_str l) ++ "]".

(** ** logging/__init__.py *)

(** [filter(None, strings)]: the truthy entries, in order. *)
Fixpoint filter_None (strings : list (option string)) : list string :=
  match strings with
  | [] => []
  | o :: r => if truthy o
              then match o with Some s => s :: filter_None r | None =>
                  filter_None r end
              else filter_None r
  end.

Definition make_log_msg (title status detail extra : option string)
    (sep : string) : string :=
  let strings := [title; status; detail; extra] in
  String.concat sep (filter_None strings).

(** ** Cell values and tables *)

(** The values a cell holds: the missing value, booleans, integers and
    text.  The missing value stands for [None] or for [NaN]: the model
    does not tell the two apart, so a table is taken to hold one kind of
    them.  Floating-point cells are not modelled. *)
Inductive value : Type :=
  | VNaN
  | VBool (b : bool)
  | VInt (z : Z)
  | VStr (s : string).

Definition value_eq_dec (a b : value) : {a = b} + {a <> b}.
Proof.
  decide equality;
    [apply Bool.bool_dec | apply Z.eq_dec | apply string_dec].
Defined.

Definition value_eqb (a b : value) : bool :=
  if value_eq_dec a b then true else false.

Definition key_eq_dec (a b : list value) : {a = b} + {a <> b} :=
  list_eq_dec value_eq_dec a b.

Definition key_eqb (a b : list value) : bool :=
  if key_eq_dec a b then true else false.

(** Python equality puts [True] with [1] and [False] with [0]; hashing,
    grouping and counting of distinct values follow it.  [canon] is the
    representative of a cell under that equality. *)
Definition canon (v : value) : value :=
  match v with
  | VBool b => VInt (if b then 1 else 0)
  | _ => v
  end.

Definition value_same (a b : value) : bool :=
  value_eqb (canon a) (canon b).

Definition key_same (a b : list value) : bool :=
  key_eqb (map canon a) (map canon b).

(** [pd.isnull] on a cell. *)
Definition isnull (v : value) : bool :=
  match v with
  | VNaN => true
  | _ => false
  end.

(** [str(v)], as [format] produces it. *)
Definition str_value (v : value) : string :=
  match v with
  | VNaN => "nan"
  | VBool true => "True"
  | VBool false => "False"
  | VInt z => str_Z z
  | VStr s => s
  end.

(** [astype(str)] on a cell.  A cell that is not missing becomes its
    text.  What a missing cell becomes depends on the version of pandas
    and on the marker: [na_text] is [Some "None"] or [Some "nan"] where
    the cell becomes that text (pandas before version 3), and [None]
    where it stays missing (pandas from version 3 on). *)
Definition astype_str (na_text : option string) (v : value)
    : option string :=
  if isnull v then na_text else Some (str_value v).

(** Numeric reading of a cell: a [bool] is an [int] in Python. *)
Definition as_number (v : value) : option Z :=
  match v with
  | VBool b => Some (if b then 1 else 0)%Z
  | VInt z => Some z
  | _ => None
  end.

(** Element-wise [==]: the missing-value marker equals nothing, numbers
    compare by value, text compares with text. *)
Definition py_eq (a b : value) : bool :=
  match a, b with
  | VNaN, _ | _, VNaN => false
  | VStr s, VStr t => (s =? t)
  | VStr _, _ | _, VStr _ => false
  | _, _ => match as_number a, as_number b with
            | Some x, Some y => (x =? y)%Z
            | _, _ => false
            end
  end.

(** The order in which group keys are sorted: numbers by value and
    before text, text by character codes. *)
Definition value_leb (a b : value) : bool :=
  match as_number a, as_number b with
  | Some x, Some y => (x <=? y)%Z
  | Some _, None => true
  | None, Some _ => false
  | None, None =>
      match a, b with
      | VStr s, VStr t => (s <=? t)
      | VStr _, _ => true
      | _, VStr _ => false
      | _, _ => true
      end
  end.

Fixpoint key_leb (a b : list value) : bool :=
  match a, b with
  | [], _ => true
  | _ :: _, [] => false
  | x :: a', y :: b' =>
      if value_same x y then key_leb a' b' else value_leb x y
  end.

(** A DataFrame: its column labels and its rows, each row holding one cell
    per column, in column order. *)
Record DataFrame : Type := mkDataFrame {
  columns : list string;
  data : list (list value)
}.

Fixpoint index_of (c : string) (cols : list string) : option nat :=
  match cols with
  | [] => None
  | d :: r => if c =? d then Some 0%nat else option_map S (index_of c r)
  end.

(** [col in df.columns]. *)
Definition has_col (df : DataFrame) (c : string) : bool :=
  match index_of c (columns df) with
  | Some _ => true
  | None => false
  end.

(** The cell of [row] under column [c]. *)
Definition cell (df : DataFrame) (c : string) (row : list value) : value :=
  match index_of c (columns df) with
  | Some i => nth i row VNaN
  | None => VNaN
  end.

(** A pattern as [str.match] uses it: its text and its matching test
    (anchored at the start of the subject, as [re.match] is). *)
Record regex : Type := mkRegex {
  pattern : string;
  re_match : string -> bool
}.

(** [.str.match(regex)] on a cell after [astype(str)]: a cell that stayed
    missing does not match. *)
Definition str_match (rx : regex) (text : option string) : bool :=
  match text with
  | Some t => re_match rx t
  | None => false
  end.

(** One label or a list of labels, as [groupby] accepts for [by]. *)
Inductive labels : Type :=
  | Label (c : string)
  | Labels (cs : list string).

Definition label_list (l : labels) : list string :=
  match l with
  | Label c => [c]
  | Labels cs => cs
  end.

Definition str_labels (l : labels) : string :=
  match l with
  | Label c => c
  | Labels cs => str_list cs
  end.

(** [str(cols)] for an optional list of labels. *)
Definition str_opt_list (cols : option (list string)) : string :=
  match cols with
  | None => "None"
  | Some l => str_list l
  end.

(** An aggregation function: its [__name__], when it has one, and what it
    computes from the cells of a group. *)
Record agg_function : Type := mkAgg {
  fn_name : option string;
  fn_apply : list value -> value
}.

(** ** Exceptions, collaborators and the trace of a call *)

Inductive exn : Type :=
  | KeyError (key : string)
  | ValueError (msg : string)
  | OSError (msg : string).

Inductive result (A : Type) : Type :=
  | Ok (a : A)
  | Raise (e : exn).
Arguments Ok {A} a.
Arguments Raise {A} e.

Inductive level : Type := INFO | WARNING | ERROR.

Record Logger : Type := mkLogger { logger_name : string }.

(** What a call sends out, in order: a record to the logger, a line to
    standard output, a call of [fail_sampler.write_sample] with its
    arguments, a csv file that [to_csv] has written. *)
Inductive event : Type :=
  | Log (lg : Logger) (lv : level) (msg : string)
  | Print (msg : string)
  | WriteSample (df : DataFrame) (fails_index : list bool)
      (save_filename : option string) (index : option bool)
  | ToCsv (save_path : string) (sample : DataFrame) (index : bool).

(** A computation: the events it emitted and its value or exception. *)
Definition M (A : Type) : Type := (list event * result A)%type.

Definition ret {A} (a : A) : M A := ([], Ok a).

Definition raise {A} (e : exn) : M A := ([], Raise e).

Definition bind {A B} (m : M A) (k : A -> M B) : M B :=
  match m with
  | (t, Raise e) => (t, Raise e)
  | (t, Ok a) => let (t', r) := k a in ((t ++ t')%list, r)
  end.

Definition emit (e : event) : M unit := ([e], Ok tt).

Definition lift {A} (r : result A) : M A := ([], r).

Notation "x <- m ;; k" := (bind m (fun x => k))
  (at level 61, m at next level, right associativity).
Notation "m ;;; k" := (bind m (fun _ => k))
  (at level 61, right associativity).

Definition trace {A} (m : M A) : list event := fst m.
Definition outcome {A} (m : M A) : result A := snd m.

(** [logger.<level>(msg) if logger else print(msg)]. *)
Definition log_or_print (logger : option Logger) (lv : level)
    (msg : string) : M unit :=
  match logger with
  | Some lg => emit (Log lg lv msg)
  | None => emit (Print msg)
  end.

(** [logger.<level>(msg) if logger else None]. *)
Definition log_or_skip (logger : option Logger) (lv : level)
    (msg : string) : M unit :=
  match logger with
  | Some lg => emit (Log lg lv msg)
  | None => ret tt
  end.

(** ** Table operations used by the checks *)

(** [df[col]]: the column as a list of cells. *)
Definition getitem (df : DataFrame) (c : string) : result (list value) :=
  if has_col df c then Ok (map (cell df c) (data df))
  else Raise (KeyError c).

(** The first label of [cols] that [df] lacks. *)
Fixpoint missing_label (df : DataFrame) (cols : list string) : option string :=
  match cols with
  | [] => None
  | c :: r => if has_col df c then missing_label df r else Some c
  end.

(** The cells of [row] under the labels [cols]. *)
Definition key_of (df : DataFrame) (cols : list string)
    (row : list value) : list value :=
  map (fun c => cell df c row) cols.

(** [df[fails_index]] with a boolean mask: the rows flagged true, in row
    order; a mask of the wrong length is refused. *)
Fixpoint select (rows : list (list value)) (mask : list bool)
    : list (list value) :=
  match rows, mask with
  | r :: rows', b :: mask' =>
      if b then r :: select rows' mask' else select rows' mask'
  | _, _ => []
  end.

Definition boolean_index (df : DataFrame) (mask : list bool)
    : result DataFrame :=
  if (List.length mask =? List.length (data df))%nat
  then Ok (mkDataFrame (columns df) (select (data df) mask))
  else Raise (ValueError "Item wrong length").

(** [df.head(n)], that is [df.iloc[:n]]. *)
Definition head (df : DataFrame) (n : Z) : DataFrame :=
  let rows := data df in
  let k := if (0 <=? n)%Z then Z.to_nat n
           else (List.length rows - Z.to_nat (- n))%nat in
  mkDataFrame (columns df) (firstn k rows).

(** [df.tail(n)]: empty for [n = 0], otherwise [df.iloc[-n:]]. *)
Definition tail (df : DataFrame) (n : Z) : DataFrame :=
  let rows := data df in
  let k := if (n =? 0)%Z then List.length rows
           else if (0 <? n)%Z then (List.length rows - Z.to_nat n)%nat
           else Z.to_nat (- n) in
  mkDataFrame (columns df) (skipn k rows).

(** [~ok]. *)
Definition invert (ok : list bool) : list bool := map negb ok.

(** [ok.all()] and [any(dup)]. *)
Definition all (ok : list bool) : bool := forallb (fun b => b) ok.
Definition any (m : list bool) : bool := existsb (fun b => b) m.

(** [sum(mask)]: the number of true entries. *)
Definition sum (m : list bool) : nat := count_occ Bool.bool_dec m true.

(** [df.duplicated(subset=cols, keep=False)]: a row is flagged when its
    combination of cells under [cols] (every column when [cols] is
    [None]) occurs on two rows or more, cells being compared as Python
    compares them and missing values counting as equal.  A table without
    rows or without columns gives the empty mask before anything is
    looked at; a label the table lacks raises [KeyError]; an empty list of
    labels raises [ValueError]. *)
Definition subset_labels (df : DataFrame) (cols : option (list string))
    : list string :=
  match cols with
  | None => columns df
  | Some l => l
  end.

(** [df.empty]. *)
Definition df_empty (df : DataFrame) : bool :=
  match columns df, data df with
  | [], _ | _, [] => true
  | _, _ => false
  end.

Definition canon_keys (df : DataFrame) (sub : list string)
    : list (list value) :=
  map (fun row => map canon (key_of df sub row)) (data df).

Definition duplicated (df : DataFrame) (cols : option (list string))
    : result (list bool) :=
  if df_empty df then Ok []
  else
    let sub := subset_labels df cols in
    match missing_label df sub with
    | Some c => Raise (KeyError c)
    | None =>
        match sub with
        | [] => Raise (ValueError
                  "not enough values to unpack (expected 2, got 0)")
        | _ =>
            let keys := canon_keys df sub in
            Ok (map (fun k => (2 <=? count_occ key_eq_dec keys k)%nat) keys)
        end
    end.

(** [os.path.join(a, b)] on POSIX paths. *)
Definition ends_with_slash (a : string) : bool :=
  match get (String.length a - 1) a with
  | Some c => Ascii.eqb c "/"%char
  | None => false
  end.

Definition path_join (a b : string) : string :=
  match b with
  | String "/"%char _ => b
  | _ => if orb (a =? "") (ends_with_slash a) then a ++ b
         else a ++ "/" ++ b
  end.

(** [df.groupby(by)[check_col].agg(agg_func)]: one entry per distinct
    combination of cells under [by], sorted by that combination; rows
    with a missing value in the combination belong to no group.
    Combinations are compared as Python compares them, and a group is
    labelled by the combination of its first row. *)
Fixpoint insert_key (k : list value) (ks : list (list value))
    : list (list value) :=
  match ks with
  | [] => [k]
  | k' :: r =>
      if key_same k k' then ks
      else if key_leb k k' then k :: ks
      else k' :: insert_key k r
  end.

Definition group_keys (keys : list (list value)) : list (list value) :=
  fold_left (fun acc k => insert_key k acc)
    (filter (fun k => negb (existsb isnull k)) keys) [].

Definition group_cells (df : DataFrame) (by_cols : list string)
    (check_col : string) (k : list value) : list value :=
  map (cell df check_col)
    (filter (fun row => key_same (key_of df by_cols row) k) (data df)).

Definition groupby_agg (df : DataFrame) (by_ : labels) (check_col : string)
    (agg_func : agg_function) : result (list (list value * value)) :=
  let by_cols := label_list by_ in
  match by_cols with
  | [] => Raise (ValueError "No group keys passed!")
  | _ =>
      match missing_label df by_cols with
      | Some c => Raise (KeyError c)
      | None =>
          if has_col df check_col then
            let keys := group_keys (map (key_of df by_cols) (data df)) in
            Ok (map (fun k =>
                  (k, fn_apply agg_func (group_cells df by_cols check_col k)))
                  keys)
          else Raise (KeyError ("Column not found: " ++ check_col))
      end
  end.

(** The aggregate result as a table: the group key, which is the index of
    the result, in the leading columns, the aggregate in the last one. *)
Definition grouped_frame (by_ : labels) (check_col : string)
    (gb_agg : list (list value * value)) : DataFrame :=
  mkDataFrame (label_list by_ ++ [check_col])%list
    (map (fun kv => (fst kv ++ [snd kv])%list) gb_agg).

(** [series.nunique(dropna=False) <= 1], the aggregation of
    [check_groupby_identical]: the distinct values are counted as Python
    compares them, the missing value being one of them. *)
Definition nunique (series : list value) : nat :=
  List.length (nodup value_eq_dec (map canon series)).

Definition nunique_le_1 : agg_function :=
  mkAgg (Some "<lambda>") (fun series => VBool (nunique series <=? 1)%nat).

(** ** __init__.py: FailSampler *)

Record FailSampler : Type := mkFailSampler {
  sample_size : option Z;
  sample_method : string;
  random_state : option Z;
  save_dir : string;
  save_filename : option string
}.

Definition sample_methods : list string := ["random"; "head"; "tail"].

(** [FailSampler.__init__]. *)
Definition FailSampler_init (a_save_dir : string)
    (a_save_filename : option string) (a_sample_method : string)
    (a_sample_size : option Z) (a_random_state : option Z)
    : result FailSampler :=
  let a_sample_method := lower a_sample_method in
  if negb (existsb (String.eqb a_sample_method) sample_methods) then
    Raise (ValueError
      "`sample_method` must be one of 'random', 'head', or 'tail'")
  else
    Ok (mkFailSampler a_sample_size a_sample_method a_random_state
          a_save_dir a_save_filename).

(** [not self.sample_size]. *)
Definition no_sample_size (n : option Z) : bool :=
  match n with
  | None => true
  | Some z => (z =? 0)%Z
  end.

(** ** __init__.py: DataFrameInspector *)

Record DataFrameInspector : Type := mkInspector {
  title : option string;
  detail : option string;
  logger : option Logger;
  fail_sampler : option FailSampler
}.

(** [DataFrameInspector.make_log_msg]. *)
Definition DataFrameInspector_make_log_msg (self : DataFrameInspector)
    (status extra : option string) (sep : string) : string :=
  let strings := [title self; status; detail self; extra] in
  String.concat sep (filter_None strings).

Section Checks.

(** [DataFrame.sample(n, random_state=...)], the random draw of pandas:
    which rows it returns, or the exception it raises. *)
Variable pd_sample : DataFrame -> Z -> option Z -> result DataFrame.

(** [datetime.datetime.now().strftime("%Y-%m-%d-%H%M%s")]. *)
Variable now_stamp : string.

(** [sample.to_csv(save_path, index=...)] on the file system of the
    call: the file is written, or an exception is raised ([OSError] when
    the directory does not exist or the path cannot be written). *)
Variable to_csv : string -> DataFrame -> bool -> result unit.

(** The keyword arguments handed to [numpy.isclose], the test they
    induce, and the default [{}]. *)
Variable tolerance : Type.
Variable np_isclose : tolerance -> value -> value -> bool.
Variable no_tolerance : tolerance.

(** What [astype(str)] makes of a missing cell, see [astype_str]. *)
Variable na_text : option string.

(** [FailSampler.take_sample]. *)
Definition take_sample (self : FailSampler) (df : DataFrame)
    (fails_index : list bool) : result DataFrame :=
  match boolean_index df fails_index with
  | Raise e => Raise e
  | Ok fails =>
      if no_sample_size (sample_size self) then Ok fails
      else
        let n := match sample_size self with Some z => z | None => 0%Z end in
        if sample_method self =? "random" then
          pd_sample fails n (random_state self)
        else if sample_method self =? "tail" then Ok (tail fails n)
        else Ok (head fails n)
  end.

(** [FailSampler.write_sample]; [index] is the keyword argument
    forwarded to [to_csv], whose default is [True]. *)
Definition write_sample (self : FailSampler) (df : DataFrame)
    (fails_index : list bool) (a_save_dir a_save_filename : option string)
    (index : option bool) : M unit :=
  let a_save_dir := py_or a_save_dir (save_dir self) in
  let a_save_filename :=
    py_or a_save_filename
      (py_or (save_filename self) ("FailSample " ++ now_stamp)) in
  let save_path := path_join a_save_dir a_save_filename in
  let index := match index with Some b => b | None => true end in
  sample <- lift (take_sample self df fails_index) ;;
  lift (to_csv save_path sample index) ;;;
  emit (ToCsv save_path sample index).

(** [fail_sampler.write_sample(df, mask, save_filename=..., ...)
    if fail_sampler else None]. *)
Definition sample_fails (sampler : option FailSampler) (df : DataFrame)
    (mask : list bool) (filename : string) (index : option bool)
    : M unit :=
  match sampler with
  | None => ret tt
  | Some s =>
      emit (WriteSample df mask (Some filename) index) ;;;
      write_sample s df mask None (Some filename) index
  end.

(** ** singledf.py: the check functions *)

Definition check_col_format (df : DataFrame) (col : string) (rx : regex)
    (df_desc inspector_title inspection_detail : option string)
    (logger : option Logger) (fail_sampler : option FailSampler)
    : M (option bool) :=
  (if has_col df col then ret tt
   else
     let msg := "Column " ++ col ++ " not found in dataframe"
                ++ (if truthy df_desc then " " ++ py_or df_desc "" else "") in
     log_or_print logger WARNING msg) ;;;
  let inspection_detail :=
    py_or inspection_detail
      ("Column " ++ col ++ " vs. pattern " ++ pattern rx) in
  column <- lift (getitem df col) ;;
  let ok := map (fun v => str_match rx (astype_str na_text v)) column in
  if all ok then
    let msg := make_log_msg inspector_title (Some "PASS")
                 (Some inspection_detail) df_desc "::" in
    log_or_print logger INFO msg ;;;
    ret (Some true)
  else
    let nrows := sum (invert ok) in
    let inspection_detail :=
      inspection_detail ++ " " ++ str_nat nrows ++ " violations" in
    let msg := make_log_msg inspector_title (Some "FAIL")
                 (Some inspection_detail) df_desc "::" in
    let fail_sample_filename :=
      make_log_msg inspector_title (Some "FAIL")
        (Some inspection_detail) df_desc " " in
    log_or_print logger ERROR msg ;;;
    sample_fails fail_sampler df (invert ok) fail_sample_filename
      (Some false) ;;;
    ret (Some false).

(** [cols if cols else df.columns.tolist()]. *)
Definition cols_or_all (df : DataFrame) (cols : option (list string))
    : list string :=
  match cols with
  | Some (c :: r) => c :: r
  | _ => columns df
  end.

Definition check_missing_values (df : DataFrame)
    (cols : option (list string))
    (df_desc inspector_title inspection_detail : option string)
    (logger : option Logger) (fail_sampler : option FailSampler)
    : M (option bool) :=
  let cols := cols_or_all df cols in
  match missing_label df cols with
  | Some c => raise (KeyError c)
  | None =>
      let ok := map (fun c =>
                  (sum (map isnull (map (cell df c) (data df))) =? 0)%nat)
                  cols in
      if all ok then
        let inspection_detail :=
          py_or inspection_detail
            ("No missing values in " ++ str_list cols) in
        let msg := make_log_msg inspector_title (Some "PASS")
                     (Some inspection_detail) df_desc "::" in
        log_or_print logger INFO msg ;;;
        ret (Some true)
      else
        let fail_cols :=
          map fst (filter (fun cb => negb (snd cb)) (combine cols ok)) in
        let inspection_detail :=
          py_or inspection_detail
            ("Missing values found in columns " ++ str_list fail_cols) in
        let msg := make_log_msg inspector_title (Some "FAIL")
                     (Some inspection_detail) df_desc "::" in
        let fail_sample_filename :=
          make_log_msg inspector_title (Some "FAIL")
            (Some inspection_detail) df_desc " " in
        log_or_skip logger ERROR msg ;;;
        let fail_index :=
          map (fun row => existsb isnull (key_of df fail_cols row))
            (data df) in
        sample_fails fail_sampler df fail_index fail_sample_filename
          (Some false) ;;;
        ret (Some false)
  end.

(** [str(check_col)]. *)
Definition str_opt (o : option string) : string :=
  match o with
  | Some s => s
  | None => "None"
  end.

(** The group-and-aggregate step of [check_groupby_agg].  With a truthy
    [check_col] the result is a Series, one aggregate per group.  With a
    falsy one every column is aggregated and the result is a DataFrame,
    whose [ok.all()] is a Series: its truth value, asked for by the
    [if], raises. *)
Definition ambiguous : string :=
  "The truth value of a Series is ambiguous. Use a.empty, a.bool(), a.item(), a.any() or a.all().".

Definition group_and_aggregate (df : DataFrame) (by_ : labels)
    (check_col : option string) (agg_func : agg_function)
    : result (list (list value * value)) :=
  if truthy check_col then groupby_agg df by_ (str_opt check_col) agg_func
  else
    match label_list by_ with
    | [] => Raise (ValueError "No group keys passed!")
    | _ =>
        match missing_label df (label_list by_) with
        | Some c => Raise (KeyError c)
        | None => Raise (ValueError ambiguous)
        end
    end.

Definition check_groupby_agg (df : DataFrame) (by_ : labels)
    (check_col : option string) (agg_func : agg_function)
    (desired_agg_val : value) (almost_equal : bool)
    (agg_func_name : string) (compare_tolerance : tolerance)
    (df_desc inspector_title inspection_detail : option string)
    (logger : option Logger) (fail_sampler : option FailSampler)
    : M (option bool) :=
  let title := py_or inspector_title "Group Aggregate Check" in
  let agg_func_name :=
    match fn_name agg_func with
    | Some n => if agg_func_name =? "infer" then n else agg_func_name
    | None => agg_func_name
    end in
  let inspection_detail :=
    py_or inspection_detail
      (str_opt check_col ++ " grouped by " ++ str_labels by_
       ++ " aggregated by " ++ agg_func_name
       ++ " compared with " ++ str_value desired_agg_val) in
  gb_agg <- lift (group_and_aggregate df by_ check_col agg_func) ;;
  let ok :=
    map (fun kv =>
           if almost_equal
           then np_isclose compare_tolerance (snd kv) desired_agg_val
           else py_eq (snd kv) desired_agg_val) gb_agg in
  if all ok then
    let msg := make_log_msg (Some title) (Some "PASS")
                 (Some inspection_detail) df_desc "::" in
    log_or_print logger INFO msg ;;;
    ret (Some true)
  else
    let n_not_ok := sum (invert ok) in
    let inspection_detail :=
      inspection_detail ++ " " ++ str_nat n_not_ok ++ " violations" in
    let msg := make_log_msg (Some title) (Some "FAIL")
                 (Some inspection_detail) df_desc "::" in
    let fail_sample_filename :=
      make_log_msg (Some title) (Some "FAIL")
        (Some inspection_detail) df_desc " " in
    log_or_print logger ERROR msg ;;;
    sample_fails fail_sampler
      (grouped_frame by_ (str_opt check_col) gb_agg) (invert ok)
      fail_sample_filename None ;;;
    ret (Some false).

(** The value of the call of [check_groupby_agg] is dropped: the
    function ends without a [return]. *)
Definition check_groupby_identical (df : DataFrame) (by_ : labels)
    (check_col : option string)
    (df_desc inspector_title inspection_detail : option string)
    (logger : option Logger) (fail_sampler : option FailSampler)
    : M (option bool) :=
  let inspection_detail :=
    py_or inspection_detail
      (str_opt check_col ++ " grouped by " ++ str_labels by_
       ++ " is identical within group?") in
  check_groupby_agg df by_ check_col nunique_le_1 (VBool true) false
    "infer" no_tolerance df_desc inspector_title
    (Some inspection_detail) logger fail_sampler ;;;
  ret None.

(** The failing branch ends without a [return]. *)
Definition check_no_duplicate (df : DataFrame)
    (cols : option (list string))
    (df_desc inspector_title inspection_detail : option string)
    (logger : option Logger) (fail_sampler : option FailSampler)
    : M (option bool) :=
  dup <- lift (duplicated df cols) ;;
  if negb (any dup) then
    let inspection_detail :=
      "No duplicate in combinations of " ++ str_opt_list cols in
    let msg := make_log_msg inspector_title (Some "PASS")
                 (Some inspection_detail) df_desc "::" in
    log_or_print logger INFO msg ;;;
    ret (Some true)
  else
    let n_not_ok := sum dup in
    let inspection_detail :=
      "Duplicates found in cols " ++ str_opt_list cols ++ " "
      ++ str_nat n_not_ok ++ " violations" in
    let msg := make_log_msg inspector_title (Some "FAIL")
                 (Some inspection_detail) df_desc "::" in
    let fail_sample_filename :=
      make_log_msg inspector_title (Some "FAIL")
        (Some inspection_detail) df_desc " " in
    log_or_print logger ERROR msg ;;;
    sample_fails fail_sampler df dup fail_sample_filename (Some false) ;;;
    ret None.

(** ** singledf.py: the inspector classes *)

Record ColumnFormatInspector : Type := mkColumnFormat {
  cf_base : DataFrameInspector;
  cf_check_col : string;
  cf_regex : regex
}.

Definition ColumnFormatInspector_init (col : string) (rx : regex)
    (a_title a_detail : option string) (a_logger : option Logger)
    (a_fail_sampler : option FailSampler) : ColumnFormatInspector :=
  let a_detail :=
    py_or a_detail ("Column " ++ col ++ " vs. pattern " ++ pattern rx) in
  mkColumnFormat
    (mkInspector a_title (Some a_detail) a_logger a_fail_sampler) col rx.

Definition ColumnFormatInspector_inspect (self : ColumnFormatInspector)
    (df : DataFrame) (df_desc : option string) : M (option bool) :=
  check_col_format df (cf_check_col self) (cf_regex self) df_desc
    (title (cf_base self)) (detail (cf_base self))
    (logger (cf_base self)) (fail_sampler (cf_base self)).

Record GroupAggregateInspector : Type := mkGroupAggregate {
  ga_base : DataFrameInspector;
  ga_by : labels;
  ga_check_col : option string;
  ga_agg_func : agg_function;
  ga_desired_agg_val : value;
  ga_almost_equal : bool;
  ga_agg_func_name : string;
  ga_compare_tolerance : tolerance
}.

Definition GroupAggregateInspector_init (by_ : labels)
    (check_col : option string) (agg_func : agg_function)
    (desired_agg_val : value) (almost_equal : bool)
    (agg_func_name : string) (compare_tolerance : tolerance)
    (a_title a_detail : option string) (a_logger : option Logger)
    (a_fail_sampler : option FailSampler) : GroupAggregateInspector :=
  let agg_func_name :=
    match fn_name agg_func with
    | Some n => n
    | None => agg_func_name
    end in
  let a_detail :=
    py_or a_detail
      (str_opt check_col ++ " grouped by " ++ str_labels by_
       ++ " aggregated by " ++ agg_func_name
       ++ " compared with " ++ str_value desired_agg_val) in
  mkGroupAggregate
    (mkInspector a_title (Some a_detail) a_logger a_fail_sampler)
    by_ check_col agg_func desired_agg_val almost_equal agg_func_name
    compare_tolerance.

Definition GroupAggregateInspector_inspect (self : GroupAggregateInspector)
    (df : DataFrame) (df_desc : option string) : M (option bool) :=
  check_groupby_agg df (ga_by self) (ga_check_col self) (ga_agg_func self)
    (ga_desired_agg_val self) (ga_almost_equal self)
    (ga_agg_func_name self) (ga_compare_tolerance self) df_desc
    (title (ga_base self)) (detail (ga_base self))
    (logger (ga_base self)) (fail_sampler (ga_base self)).

Record IdenticalWithinGroupInspector : Type := mkIdenticalWithinGroup {
  ig_base : DataFrameInspector;
  ig_by : labels;
  ig_check_col : option string
}.

Definition IdenticalWithinGroupInspector_init (by_ : labels)
    (check_col : option string) (almost_equal : bool)
    (a_title a_detail : option string) (a_logger : option Logger)
    (a_fail_sampler : option FailSampler)
    : IdenticalWithinGroupInspector :=
  let a_detail :=
    py_or a_detail (str_opt check_col ++ " grouped by " ++ str_labels by_) in
  mkIdenticalWithinGroup
    (mkInspector a_title (Some a_detail) a_logger a_fail_sampler)
    by_ check_col.

Definition IdenticalWithinGroupInspector_inspect
    (self : IdenticalWithinGroupInspector)
    (df : DataFrame) (df_desc : option string) : M (option bool) :=
  check_groupby_identical df (ig_by self) (ig_check_col self) df_desc
    (title (ig_base self)) (detail (ig_base self))
    (logger (ig_base self)) (fail_sampler (ig_base self)).

Record NoDuplicateInspector : Type := mkNoDuplicate {
  nd_base : DataFrameInspector;
  nd_cols : option (list string)
}.

Definition NoDuplicateInspector_init (cols : option (list string))
    (a_title a_detail : option string) (a_logger : option Logger)
    (a_fail_sampler : option FailSampler) : NoDuplicateInspector :=
  mkNoDuplicate (mkInspector a_title a_detail a_logger a_fail_sampler) cols.

Definition NoDuplicateInspector_inspect (self : NoDuplicateInspector)
    (df : DataFrame) (df_desc : option string) : M (option bool) :=
  check_no_duplicate df (nd_cols self) df_desc
    (title (nd_base self)) (detail (nd_base self))
    (logger (nd_base self)) (fail_sampler (nd_base self)).

Record MissingValuesInspector : Type := mkMissingValues {
  mv_base : DataFrameInspector;
  mv_cols : option (list string)
}.

Definition MissingValuesInspector_init (cols : option (list string))
    (a_title a_detail : option string) (a_logger : option Logger)
    (a_fail_sampler : option FailSampler) : MissingValuesInspector :=
  mkMissingValues (mkInspector a_title a_detail a_logger a_fail_sampler)
    cols.

Definition MissingValuesInspector_inspect (self : MissingValuesInspector)
    (df : DataFrame) (df_desc : option string) : M (option bool) :=
  check_missing_values df (mv_cols self) df_desc
    (title (mv_base self)) (detail (mv_base self))
    (logger (mv_base self)) (fail_sampler (mv_base self)).

(** The five inspector classes, and [inspect] dispatched on the class
    of the receiver. *)
Inductive Inspector : Type :=
  | ColumnFormat (i : ColumnFormatInspector)
  | GroupAggregate (i : GroupAggregateInspector)
  | IdenticalWithinGroup (i : IdenticalWithinGroupInspector)
  | NoDuplicate (i : NoDuplicateInspector)
  | MissingValues (i : MissingValuesInspector).

Definition inspect (self : Inspector) (df : DataFrame)
    (df_desc : option string) : M (option bool) :=
  match self with
  | ColumnFormat i => ColumnFormatInspector_inspect i df df_desc
  | GroupAggregate i => GroupAggregateInspector_inspect i df df_desc
  | IdenticalWithinGroup i =>
      IdenticalWithinGroupInspector_inspect i df df_desc
  | NoDuplicate i => NoDuplicateInspector_inspect i df df_desc
  | MissingValues i => MissingValuesInspector_inspect i df df_desc
  end.

End Checks.

(** ** Specification-side definitions *)

(** How a verdict message reaches the outside when the logger may be
    absent: [logger.<level>(msg) if logger else print(msg)]. *)
Definition log_event (logger : option Logger) (lv : level) (msg : string)
    : event :=
  match logger with
  | Some lg => Log lg lv msg
  | None => Print msg
  end.

(** The non-absent fields joined by the separator, in order: an absent
    field (null or empty) contributes nothing, and the separator stands
    only between two fields that are present. *)
Fixpoint join_present (sep : string) (fields : list (option string))
    : string :=
  match fields with
  | [] => ""
  | None :: r => join_present sep r
  | Some s :: r =>
      if s =? "" then join_present sep r
      else if existsb truthy r then s ++ sep ++ join_present sep r
      else s
  end.

(** The rows on which the mask is true, in row order. *)
Definition masked_rows (rows : list (list value)) (mask : list bool)
    : list (list value) :=
  map fst (filter snd (combine rows mask)).

(** The last [n] elements of a list, in order. *)
Definition last_n {A} (n : nat) (l : list A) : list A :=
  rev (firstn n (rev l)).

(** [s.endswith(suffix)]. *)
Fixpoint ends_with (suffix s : string) : bool :=
  if (String.length s <? String.length suffix)%nat then false
  else if s =? suffix then true
  else match s with
       | EmptyString => false
       | String _ r => ends_with suffix r
       end.

(** The text a check appends to its detail for [n] violations. *)
Definition count_suffix (n : nat) : string :=
  " " ++ str_nat n ++ " violations".

(** The rows of [df] whose cell under [col], as text, does not match. *)
Definition non_matching (na_text : option string) (df : DataFrame)
    (col : string) (rx : regex) : list (list value) :=
  filter (fun row =>
            negb (str_match rx (astype_str na_text (cell df col row))))
    (data df).

(** Two different rows of [df] hold the same combination of cells under
    [cols], cells being compared as Python compares them. *)
Definition has_duplicate (df : DataFrame) (cols : list string) : Prop :=
  exists i j r1 r2,
    i <> j /\ nth_error (data df) i = Some r1
    /\ nth_error (data df) j = Some r2
    /\ key_same (key_of df cols r1) (key_of df cols r2) = true.

(** Some column among [cols] holds a missing value. *)
Definition has_missing (df : DataFrame) (cols : list string) : bool :=
  existsb (fun c => existsb isnull (map (cell df c) (data df))) cols.

(** The events that carry a message: a record sent to the logger or a
    line printed. *)
Definition is_message (e : event) : bool :=
  match e with
  | Log _ _ _ | Print _ => true
  | _ => false
  end.

(** What the five check functions are called with beyond their own
    parameters. *)
Record call_context : Type := mkContext {
  c_df : DataFrame;
  c_desc : option string;
  c_title : option string;
  c_detail : option string;
  c_logger : option Logger;
  c_sampler : option FailSampler
}.

Section Calls.

Variable pd_sample : DataFrame -> Z -> option Z -> result DataFrame.
Variable now_stamp : string.
Variable to_csv : string -> DataFrame -> bool -> result unit.
Variable tolerance : Type.
Variable np_isclose : tolerance -> value -> value -> bool.
Variable no_tolerance : tolerance.
Variable na_text : option string.

(** A call of one of the check functions. *)
Inductive check_call : Type :=
  | CallColFormat (ctx : call_context) (col : string) (rx : regex)
  | CallMissingValues (ctx : call_context) (cols : option (list string))
  | CallGroupbyAgg (ctx : call_context) (by_ : labels)
      (check_col : option string) (agg_func : agg_function)
      (desired_agg_val : value) (almost_equal : bool)
      (agg_func_name : string) (compare_tolerance : tolerance)
  | CallGroupbyIdentical (ctx : call_context) (by_ : labels)
      (check_col : option string)
  | CallNoDuplicate (ctx : call_context) (cols : option (list string)).

Definition context_of (c : check_call) : call_context :=
  match c with
  | CallColFormat ctx _ _ | CallMissingValues ctx _
  | CallGroupbyAgg ctx _ _ _ _ _ _ _ | CallGroupbyIdentical ctx _ _
  | CallNoDuplicate ctx _ => ctx
  end.

Definition run (c : check_call) : M (option bool) :=
  match c with
  | CallColFormat ctx col rx =>
      check_col_format pd_sample now_stamp to_csv na_text (c_df ctx) col rx
          (c_desc ctx)
        (c_title ctx) (c_detail ctx) (c_logger ctx) (c_sampler ctx)
  | CallMissingValues ctx cols =>
      check_missing_values pd_sample now_stamp to_csv (c_df ctx) cols (c_desc
          ctx)
        (c_title ctx) (c_detail ctx) (c_logger ctx) (c_sampler ctx)
  | CallGroupbyAgg ctx by_ check_col agg_func val almost name tol =>
      check_groupby_agg pd_sample now_stamp to_csv tolerance np_isclose
        (c_df ctx) by_
        check_col agg_func val almost name tol (c_desc ctx)
        (c_title ctx) (c_detail ctx) (c_logger ctx) (c_sampler ctx)
  | CallGroupbyIdentical ctx by_ check_col =>
      check_groupby_identical pd_sample now_stamp to_csv tolerance np_isclose
        no_tolerance
        (c_df ctx) by_ check_col (c_desc ctx)
        (c_title ctx) (c_detail ctx) (c_logger ctx) (c_sampler ctx)
  | CallNoDuplicate ctx cols =>
      check_no_duplicate pd_sample now_stamp to_csv (c_df ctx) cols (c_desc ctx)
        (c_title ctx) (c_detail ctx) (c_logger ctx) (c_sampler ctx)
  end.

(** The title under which a call logs: [check_groupby_agg] replaces a
    falsy title by its default. *)
Definition logged_title (c : check_call) : option string :=
  match c with
  | CallGroupbyAgg ctx _ _ _ _ _ _ _ | CallGroupbyIdentical ctx _ _ =>
      Some (py_or (c_title ctx) "Group Aggregate Check")
  | _ => c_title (context_of c)
  end.

(** The mask a call decides on, true where the check is violated: per row
    for the format and duplicate checks, per group for the two group
    checks, per column for the missing-value check. *)
Definition aggregate_mask (gb_agg : list (list value * value))
    (desired_agg_val : value) (almost_equal : bool)
    (compare_tolerance : tolerance) : list bool :=
  invert (map (fun kv =>
                 if almost_equal
                 then np_isclose compare_tolerance (snd kv) desired_agg_val
                 else py_eq (snd kv) desired_agg_val) gb_agg).

Definition verdict_mask (c : check_call) : result (list bool) :=
  match c with
  | CallColFormat ctx col rx =>
      match getitem (c_df ctx) col with
      | Ok column =>
          Ok (invert (map (fun v => str_match rx (astype_str na_text v))
                      column))
      | Raise e => Raise e
      end
  | CallMissingValues ctx cols =>
      let cols := cols_or_all (c_df ctx) cols in
      match missing_label (c_df ctx) cols with
      | Some k => Raise (KeyError k)
      | None =>
          Ok (invert (map (fun k =>
                (sum (map isnull (map (cell (c_df ctx) k) (data (c_df ctx))))
                 =? 0)%nat) cols))
      end
  | CallGroupbyAgg ctx by_ check_col agg_func val almost _ tol =>
      match group_and_aggregate (c_df ctx) by_ check_col agg_func with
      | Ok g => Ok (aggregate_mask g val almost tol)
      | Raise e => Raise e
      end
  | CallGroupbyIdentical ctx by_ check_col =>
      match group_and_aggregate (c_df ctx) by_ check_col nunique_le_1 with
      | Ok g => Ok (aggregate_mask g (VBool true) false no_tolerance)
      | Raise e => Raise e
      end
  | CallNoDuplicate ctx cols => duplicated (c_df ctx) cols
  end.

(** The checks that put a violation count into their detail. *)
Definition appends_count (c : check_call) : bool :=
  match c with
  | CallMissingValues _ _ => false
  | _ => true
  end.

(** A failing run logged a FAIL message whose detail [d] ends with the
    count of [n] violations, and handed the sampler that message rebuilt
    with a space for the separator as the file name. *)
Definition counted_fail (c : check_call) (n : nat) : Prop :=
  let ctx := context_of c in
  exists d,
    ends_with (count_suffix n) d = true /\
    In (log_event (c_logger ctx) ERROR
          (make_log_msg (logged_title c) (Some "FAIL") (Some d)
             (c_desc ctx) "::")) (trace (run c)) /\
    (forall s, c_sampler ctx = Some s ->
       exists df mask index,
         In (WriteSample df mask
               (Some (make_log_msg (logged_title c) (Some "FAIL") (Some d)
                        (c_desc ctx) " ")) index) (trace (run c))).

(** The detail of a failing [check_missing_values]: the one supplied, or
    the list of the columns that hold a missing value. *)
Definition missing_detail (ctx : call_context)
    (cols : option (list string)) : string :=
  let df := c_df ctx in
  let cols := cols_or_all df cols in
  py_or (c_detail ctx)
    ("Missing values found in columns "
     ++ str_list (filter (fun k =>
          negb (sum (map isnull (map (cell df k) (data df))) =? 0)%nat)
          cols)).

End Calls.

(** ** Tables, patterns and samplers of the scenarios *)

(** A draw that stands for [DataFrame.sample] where a concrete one is
    needed: it refuses more rows than there are, as pandas does, and
    otherwise returns the leading ones. *)
Definition leading_draw (df : DataFrame) (n : Z) (seed : option Z)
    : result DataFrame :=
  if orb (n <? 0)%Z (Z.of_nat (List.length (data df)) <? n)%Z
  then Raise (ValueError
    "Cannot take a larger sample than population when 'replace=False'")
  else Ok (head df n).

Definition a_stamp : string := "2020-03-01-10151583057700".

(** A file system on which every csv can be written, and one on which
    the directory of the samples does not exist. *)
Definition csv_ok (path : string) (sample : DataFrame) (index : bool)
    : result unit := Ok tt.

Definition csv_no_dir (path : string) (sample : DataFrame) (index : bool)
    : result unit :=
  Raise (OSError "Cannot save file into a non-existent directory").

(** The text of a missing cell under pandas before version 3, for a
    column that holds [None]. *)
Definition None_text : option string := Some "None".

(** The pattern [^[a-z]+$]. *)
Definition is_lower (c : ascii) : bool :=
  let n := nat_of_ascii c in andb (97 <=? n)%nat (n <=? 122)%nat.

Fixpoint lower_run (s : string) : bool :=
  match s with
  | EmptyString => true
  | String c EmptyString =>
      orb (is_lower c) (Ascii.eqb c (ascii_of_nat 10))
  | String c r => andb (is_lower c) (lower_run r)
  end.

Definition lower_letters : regex :=
  mkRegex "^[a-z]+$"
    (fun s =>
       match s with
       | String c r => andb (is_lower c) (lower_run r)
       | EmptyString => false
       end).

Definition exact_isclose (_ : unit) (a b : value) : bool := py_eq a b.

(** The pattern [^A\d$]. *)
Definition is_digit (c : ascii) : bool :=
  let n := nat_of_ascii c in andb (48 <=? n)%nat (n <=? 57)%nat.

Definition letter_A_digit : regex :=
  mkRegex "^A\d$"
    (fun s =>
       match s with
       | String "A"%char (String d EmptyString) => is_digit d
       | String "A"%char (String d (String nl EmptyString)) =>
           andb (is_digit d) (Ascii.eqb nl (ascii_of_nat 10))
       | _ => false
       end).

Definition ids_table : DataFrame :=
  mkDataFrame ["id"] [[VStr "A1"]; [VStr "A2"]; [VStr "B1"]].

Definition pairs_table : DataFrame :=
  mkDataFrame ["a"; "b"]
    [[VInt 1; VInt 2]; [VInt 1; VInt 2]; [VInt 3; VInt 4]].

Definition groups_table : DataFrame :=
  mkDataFrame ["group"; "value"]
    [[VInt 1; VInt 10]; [VInt 1; VInt 10]; [VInt 2; VInt 5]].

Definition gaps_table : DataFrame :=
  mkDataFrame ["a"; "b"]
    [[VInt 1; VStr "x"]; [VInt 2; VNaN]; [VInt 3; VStr "z"]].

Definition a_logger : Logger := mkLogger "qa".

Definition head_sampler : FailSampler :=
  mkFailSampler (Some 2%Z) "head" None "fail_samples" None.

Definition tail_sampler : FailSampler :=
  mkFailSampler (Some 2%Z) "tail" None "fail_samples" None.

Definition odd_sampler : FailSampler :=
  mkFailSampler (Some 1%Z) "first" None "fail_samples" None.

(** A failing call of [check_missing_values] and one of
    [check_col_format], each with a logger and a sampler. *)
Definition gaps_call : check_call unit :=
  CallMissingValues unit
    (mkContext gaps_table None (Some "check_missing_values") None
       (Some a_logger) (Some head_sampler))
    None.

Definition ids_call : check_call unit :=
  CallColFormat unit
    (mkContext ids_table None (Some "check_col_format") None
       (Some a_logger) (Some head_sampler))
    "id" letter_A_digit.

(** ** Further specification-side definitions *)

(** The rows of [df] that hold a missing value under one of [cols]. *)
Definition null_rows_mask (df : DataFrame) (cols : list string) : list bool :=
  map (fun row => existsb (fun c => isnull (cell df c row)) cols) (data df).

(** Where [write_sample] puts the sample of a call that names the file
    and no directory, and the [index] argument of [to_csv] when the call
    passes none. *)
Definition sample_path (now_stamp : string) (s : FailSampler)
    (filename : string) : string :=
  path_join (save_dir s)
    (py_or (Some filename)
       (py_or (save_filename s) ("FailSample " ++ now_stamp))).

Definition csv_index (index : option bool) : bool :=
  match index with
  | Some b => b
  | None => true
  end.

(** The events that write a file. *)
Definition is_csv (e : event) : bool :=
  match e with
  | ToCsv _ _ _ => true
  | _ => false
  end.

(** The events that concern the sampler: the call made to it and the file
    it writes. *)
Definition is_sampling (e : event) : bool :=
  match e with
  | WriteSample _ _ _ _ | ToCsv _ _ _ => true
  | _ => false
  end.

(** The rows of [df] whose cells under [by_cols] form the key [k]. *)
Definition rows_of_group (df : DataFrame) (by_cols : list string)
    (k : list value) : list (list value) :=
  filter (fun row => key_same (key_of df by_cols row) k) (data df).

(** Within every group the cells under [check_col] are all the same: two
    rows that agree on [by_cols], with no missing value there, agree on
    [check_col], cells being compared as Python compares them. *)
Definition identical_within_groups (df : DataFrame) (by_cols : list string)
    (check_col : string) : Prop :=
  forall r1 r2,
    In r1 (data df) -> In r2 (data df) ->
    existsb isnull (key_of df by_cols r1) = false ->
    key_same (key_of df by_cols r1) (key_of df by_cols r2) = true ->
    value_same (cell df check_col r1) (cell df check_col r2) = true.

(** The groups in which [check_col] takes more than one value. *)
Definition violating_groups (df : DataFrame) (by_cols : list string)
    (check_col : string) : list (list value) :=
  filter (fun k =>
            negb (nunique (map (cell df check_col)
                             (rows_of_group df by_cols k)) <=? 1)%nat)
    (group_keys (map (key_of df by_cols) (data df))).

Section Returns.

Variable tolerance : Type.

(** What a call returns from its passing branch and from its failing
    branch: [check_groupby_identical] has no [return] at all and
    [check_no_duplicate] none in its failing branch. *)
Definition pass_value (c : check_call tolerance) : option bool :=
  match c with
  | CallGroupbyIdentical _ _ _ _ => None
  | _ => Some true
  end.

Definition fail_value (c : check_call tolerance) : option bool :=
  match c with
  | CallGroupbyIdentical _ _ _ _ | CallNoDuplicate _ _ _ => None
  | _ => Some false
  end.

(** The verdict message of a call for a status and a detail. *)
Definition verdict_msg (c : check_call tolerance) (status detail sep : string)
    : string :=
  make_log_msg (logged_title tolerance c) (Some status) (Some detail)
    (c_desc (context_of tolerance c)) sep.

(** How a call reaches its logger. *)
Definition logger_of (c : check_call tolerance) : option Logger :=
  c_logger (context_of tolerance c).

Definition sampler_of (c : check_call tolerance) : option FailSampler :=
  c_sampler (context_of tolerance c).

(** The [index] argument a call passes on to [to_csv]: [False] for the
    checks that sample rows of the table, nothing (so the index is
    written) for the checks that sample the aggregate result. *)
Definition sample_index (c : check_call tolerance) : option bool :=
  match c with
  | CallGroupbyAgg _ _ _ _ _ _ _ _ _ | CallGroupbyIdentical _ _ _ _ => None
  | _ => Some false
  end.

End Returns.

(** The sampling step with which the failing branch of call [c] ends. *)
Definition sampling_of
    (pd_sample : DataFrame -> Z -> option Z -> result DataFrame)
    (now_stamp : string)
    (to_csv : string -> DataFrame -> bool -> result unit)
    (tolerance : Type) (c : check_call tolerance)
    (df : DataFrame) (mask : list bool) (filename : string)
    (index : option bool) : M (option bool) :=
  bind (sample_fails pd_sample now_stamp to_csv (sampler_of tolerance c) df
          mask filename index)
    (fun _ => ret (fail_value tolerance c)).

(** Calls used as examples: a passing duplicate check, a missing-value
    check on a column the table lacks, and a failing format check whose
    sampler asks for more random rows than there are. *)
Definition unique_ids_call : check_call unit :=
  CallNoDuplicate unit
    (mkContext ids_table None (Some "check_no_duplicate") None None
       (Some head_sampler))
    None.

Definition absent_column_call : check_call unit :=
  CallMissingValues unit
    (mkContext ids_table None (Some "check_missing_values") None None None)
    (Some ["name"]).

(** A table with two groups, one of which holds two different values. *)
Definition mixed_table : DataFrame :=
  mkDataFrame ["group"; "value"]
    [[VInt 1; VInt 10]; [VInt 1; VInt 20]; [VInt 2; VInt 5]].

(** A table whose key column holds [1] and [True], which Python takes
    for the same key. *)
Definition one_true_table : DataFrame :=
  mkDataFrame ["group"; "value"]
    [[VInt 1; VInt 10]; [VBool true; VInt 10]; [VInt 2; VInt 5]].

(** The aggregation [sum] over integer cells. *)
Definition agg_sum : agg_function :=
  mkAgg (Some "sum")
    (fun series =>
       VInt (fold_right (fun v acc =>
               match as_number v with
               | Some z => (z + acc)%Z
               | None => acc
               end) 0%Z series)).

Definition whole_sampler : FailSampler :=
  mkFailSampler None "random" None "fail_samples" (Some "latest.csv").

Definition greedy_sampler : FailSampler :=
  mkFailSampler (Some 5%Z) "random" (Some 7%Z) "fail_samples" None.

Definition greedy_ids_call : check_call unit :=
  CallColFormat unit
    (mkContext ids_table None (Some "check_col_format") None None
       (Some greedy_sampler))
    "id" letter_A_digit.

(** * Properties *)

(** ** The message formatter *)

Lemma filter_None_nil_iff (fields : list (option string)) :
  existsb truthy fields = false <-> filter_None fields = [].
Proof.
  induction fields as [|o r IH]; simpl.
  - tauto.
  - destruct (truthy o) eqn:T; simpl.
    + destruct o as [s|]; [|discriminate]. split; discriminate.
    + exact IH.
Qed.

Lemma concat_filter_None (sep : string) (fields : list (option string)) :
  String.concat sep (filter_None fields) = join_present sep fields.
Proof.
  induction fields as [|o r IH]; simpl; [reflexivity|].
  destruct o as [s|]; simpl; [|exact IH].
  destruct (s =? "") eqn:E; simpl; [exact IH|].
  destruct (existsb truthy r) eqn:X.
  - destruct (filter_None r) as [|x xs] eqn:F.
    + apply filter_None_nil_iff in F. congruence.
    + rewrite <- IH. reflexivity.
  - apply filter_None_nil_iff in X. rewrite X. reflexivity.
Qed.

Lemma has_char_app (c : ascii) (a b : string) :
  has_char c (a ++ b) = orb (has_char c a) (has_char c b).
Proof.
  induction a as [|x a IH]; simpl; [reflexivity|].
  destruct (Ascii.eqb c x); [reflexivity | exact IH].
Qed.

Lemma has_char_concat (c : ascii) (sep : string) (l : list string) :
  has_char c (String.concat sep l) =
  orb (existsb (has_char c) l)
      (andb (has_char c sep) (2 <=? List.length l)%nat).
Proof.
  induction l as [|x xs IH]; simpl.
  - now rewrite andb_false_r.
  - destruct xs as [|y ys].
    + simpl. now rewrite andb_false_r, !orb_false_r.
    + rewrite !has_char_app, IH.
      change (2 <=? List.length (x :: y :: ys))%nat with true.
      rewrite andb_true_r.
      destruct (has_char c x), (has_char c sep); simpl;
        rewrite ?orb_true_r, ?andb_false_r, ?orb_false_r; reflexivity.
Qed.

(** C9. [make_log_msg], and the method of the same name of
    [DataFrameInspector], return the fields that are present (neither
    [None] nor empty) joined by the separator in the order title, status,
    detail, extra.  An absent field leaves nothing behind: a character
    occurs in the result exactly when it occurs in a present field, or in
    the separator while two fields or more are present, so no text such as
    [None] is put in for a field that is absent. *)
Theorem make_log_msg_joins_present
    (title status detail extra : option string) (sep : string)
    (lg : option Logger) (fs : option FailSampler) :
  make_log_msg title status detail extra sep
    = join_present sep [title; status; detail; extra]
  /\ DataFrameInspector_make_log_msg (mkInspector title detail lg fs)
       status extra sep
     = join_present sep [title; status; detail; extra]
  /\ forall c : ascii,
       has_char c (make_log_msg title status detail extra sep)
       = orb (existsb (has_char c)
                (filter_None [title; status; detail; extra]))
             (andb (has_char c sep)
                (2 <=? List.length
                         (filter_None [title; status; detail; extra]))%nat).
Proof.
  repeat split.
  - apply concat_filter_None.
  - apply concat_filter_None.
  - intro c. apply has_char_concat.
Qed.

(** ** The fail sampler *)

Lemma select_masked_rows (rows : list (list value)) (mask : list bool) :
  select rows mask = masked_rows rows mask.
Proof.
  unfold masked_rows. revert mask.
  induction rows as [|r rows IH]; intros [|b mask]; simpl; try reflexivity.
  destruct b; simpl; now rewrite IH.
Qed.

Lemma skipn_last_n {A} (n : nat) (l : list A) :
  skipn (List.length l - n) l = last_n n l.
Proof.
  unfold last_n. now rewrite firstn_rev, rev_involutive.
Qed.

Lemma boolean_index_fits (df : DataFrame) (mask : list bool) :
  List.length mask = List.length (data df) ->
  boolean_index df mask
  = Ok (mkDataFrame (columns df) (masked_rows (data df) mask)).
Proof.
  intro H. unfold boolean_index.
  rewrite H, Nat.eqb_refl, select_masked_rows. reflexivity.
Qed.

Lemma existsb_eqb_In (x : string) (l : list string) :
  existsb (String.eqb x) l = true <-> In x l.
Proof.
  rewrite existsb_exists. split.
  - intros (y & Hy & E). apply String.eqb_eq in E. now subst.
  - intro H. exists x. split; [exact H | apply String.eqb_refl].
Qed.

(** C5. With a mask as long as the table, [take_sample] returns every row
    the mask flags when [sample_size] is unset or zero, whatever the
    method; with a size [N] it returns the first [N] flagged rows under
    method [head] and the last [N] under method [tail], in row order. *)
Theorem take_sample_selects
    (pd_sample : DataFrame -> Z -> option Z -> result DataFrame)
    (self : FailSampler) (df : DataFrame) (mask : list bool) :
  List.length mask = List.length (data df) ->
  let fails := masked_rows (data df) mask in
  (sample_size self = None \/ sample_size self = Some 0%Z ->
     take_sample pd_sample self df mask
     = Ok (mkDataFrame (columns df) fails))
  /\ (forall N, (0 < N)%Z -> sample_size self = Some N ->
        sample_method self = "head" ->
        take_sample pd_sample self df mask
        = Ok (mkDataFrame (columns df) (firstn (Z.to_nat N) fails)))
  /\ (forall N, (0 < N)%Z -> sample_size self = Some N ->
        sample_method self = "tail" ->
        take_sample pd_sample self df mask
        = Ok (mkDataFrame (columns df) (last_n (Z.to_nat N) fails))).
Proof.
  intros Hlen fails. unfold take_sample.
  rewrite (boolean_index_fits df mask Hlen). fold fails.
  split; [|split].
  - intros [E|E]; rewrite E; reflexivity.
  - intros N HN E Hm. rewrite E, Hm. simpl.
    destruct (N =? 0)%Z eqn:Z0; [lia|].
    unfold head. simpl.
    destruct (0 <=? N)%Z eqn:P; [reflexivity | lia].
  - intros N HN E Hm. rewrite E, Hm. simpl.
    destruct (N =? 0)%Z eqn:Z0; [lia|].
    unfold tail. simpl. rewrite Z0.
    destruct (0 <? N)%Z eqn:P; [|lia].
    now rewrite skipn_last_n.
Qed.

Lemma take_sample_selects_witness :
  take_sample leading_draw head_sampler pairs_table [false; true; true]
  = Ok (mkDataFrame ["a"; "b"] [[VInt 1; VInt 2]; [VInt 3; VInt 4]])
  /\ take_sample leading_draw tail_sampler ids_table [true; true; true]
     = Ok (mkDataFrame ["id"] [[VStr "A2"]; [VStr "B1"]]).
Proof.
  split.
  - exact (proj1 (proj2 (take_sample_selects leading_draw head_sampler
             pairs_table [false; true; true] eq_refl))
             2%Z eq_refl eq_refl eq_refl).
  - exact (proj2 (proj2 (take_sample_selects leading_draw tail_sampler
             ids_table [true; true; true] eq_refl))
             2%Z eq_refl eq_refl eq_refl).
Defined.

(** C6. [FailSampler.__init__] raises exactly when the lower-cased
    [sample_method] is none of [random], [head], [tail], and otherwise
    stores the lower-cased method.  [take_sample] does not look at the set
    of methods again: on a sampler whose method is none of the three it
    raises nothing and returns a sample. *)
Theorem FailSampler_validates_at_construction
    (pd_sample : DataFrame -> Z -> option Z -> result DataFrame)
    (dir : string) (filename : option string) (method : string)
    (size seed : option Z) :
  ((exists e, FailSampler_init dir filename method size seed = Raise e)
   <-> ~ In (lower method) ["random"; "head"; "tail"])
  /\ (forall self, FailSampler_init dir filename method size seed = Ok self ->
        sample_method self = lower method)
  /\ (forall self df mask,
        ~ In (sample_method self) ["random"; "head"; "tail"] ->
        List.length mask = List.length (data df) ->
        exists sample, take_sample pd_sample self df mask = Ok sample).
Proof.
  unfold FailSampler_init. fold sample_methods.
  destruct (existsb (String.eqb (lower method)) sample_methods) eqn:X;
    cbn [negb].
  - apply existsb_eqb_In in X. split; [|split].
    + split; [intros (e & H); discriminate | tauto].
    + intros self H. injection H as <-. reflexivity.
    + intros self df mask Hm Hlen. unfold take_sample.
      rewrite (boolean_index_fits df mask Hlen).
      destruct (no_sample_size (sample_size self)); [eauto|].
      destruct (sample_method self =? "random") eqn:R.
      { apply String.eqb_eq in R. exfalso. apply Hm. rewrite R. simpl. tauto. }
      destruct (sample_method self =? "tail"); eauto.
  - split; [|split].
    + split; [|eauto]. intros _ H.
      apply (proj2 (existsb_eqb_In _ sample_methods)) in H. congruence.
    + intros self H. discriminate.
    + intros self df mask Hm Hlen. unfold take_sample.
      rewrite (boolean_index_fits df mask Hlen).
      destruct (no_sample_size (sample_size self)); [eauto|].
      destruct (sample_method self =? "random") eqn:R.
      { apply String.eqb_eq in R. exfalso. apply Hm. rewrite R. simpl. tauto. }
      destruct (sample_method self =? "tail"); eauto.
Qed.

Lemma FailSampler_validates_at_construction_witness :
  (exists e, FailSampler_init "fail_samples" None "First" (Some 1%Z) None
             = Raise e)
  /\ (exists sample,
        take_sample leading_draw odd_sampler pairs_table [true; false; true]
        = Ok sample).
Proof.
  pose proof (FailSampler_validates_at_construction leading_draw
                "fail_samples" None "First" (Some 1%Z) None) as [V [_ T]].
  split.
  - apply V. simpl. intros [H|[H|[H|[]]]]; discriminate.
  - apply T; [|reflexivity].
    simpl. intros [H|[H|[H|[]]]]; discriminate.
Defined.

(** ** Running a check: the trace and the outcome *)

Lemma bind_ret {A B} (a : A) (k : A -> M B) : bind (ret a) k = k a.
Proof. unfold bind, ret. now destruct (k a). Qed.

Lemma bind_lift_Ok {A B} (a : A) (k : A -> M B) : bind (lift (Ok a)) k = k a.
Proof. apply bind_ret. Qed.

Lemma bind_lift_Raise {A B} (e : exn) (k : A -> M B) :
  bind (lift (Raise e)) k = ([], Raise e).
Proof. reflexivity. Qed.

Lemma bind_emit {B} (e : event) (k : unit -> M B) :
  bind (emit e) k = (e :: trace (k tt), outcome (k tt)).
Proof. unfold bind, emit, trace, outcome. now destruct (k tt). Qed.

Lemma trace_bind_l {A B} (m : M A) (k : A -> M B) (e : event) :
  In e (trace m) -> In e (trace (bind m k)).
Proof.
  destruct m as [t [a|x]]; simpl; [|tauto].
  intro H. destruct (k a). simpl. apply in_or_app. now left.
Qed.

Lemma trace_bind_r {A B} (m : M A) (k : A -> M B) (a : A) (e : event) :
  outcome m = Ok a -> In e (trace (k a)) -> In e (trace (bind m k)).
Proof.
  destruct m as [t r]; simpl. intros -> H.
  destruct (k a). simpl in *. apply in_or_app. now right.
Qed.

Lemma outcome_bind_Ok {A B} (m : M A) (k : A -> M B) (a : A) :
  outcome m = Ok a -> outcome (bind m k) = outcome (k a).
Proof.
  destruct m as [t r]; simpl. intros ->. now destruct (k a).
Qed.

Lemma log_or_print_event (logger : option Logger) (lv : level)
    (msg : string) :
  log_or_print logger lv msg = emit (log_event logger lv msg).
Proof. now destruct logger. Qed.

(** The sampling step ends normally or raises; it never yields a
    verdict of its own. *)
Lemma outcome_after_sampling
    (pd_sample : DataFrame -> Z -> option Z -> result DataFrame)
    (now_stamp : string)
    (to_csv : string -> DataFrame -> bool -> result unit)
    (sampler : option FailSampler) (df : DataFrame)
    (mask : list bool) (filename : string) (index : option bool)
    (v : option bool) :
  let r := bind (sample_fails pd_sample now_stamp to_csv sampler df mask
      filename
                   index) (fun _ => ret v) in
  outcome r = Ok v \/ exists e, outcome r = Raise e.
Proof.
  destruct sampler as [s|]; simpl; [|now left].
  unfold write_sample.
  destruct (take_sample pd_sample s df mask) as [sample|e]; simpl;
    [|right; now exists e].
  destruct (to_csv _ sample _) as [[]|e]; simpl;
    [now left | right; now exists e].
Qed.

Lemma all_map_Forall {A} (f : A -> bool) (l : list A) :
  all (map f l) = true <-> Forall (fun x => f x = true) l.
Proof.
  unfold all. rewrite forallb_forall, Forall_forall. split.
  - intros H x Hx. apply H. now apply in_map.
  - intros H b Hb. apply in_map_iff in Hb as (x & <- & Hx). now apply H.
Qed.

Lemma sum_invert_map {A} (f : A -> bool) (l : list A) :
  sum (invert (map f l)) = List.length (filter (fun x => negb (f x)) l).
Proof.
  unfold sum, invert.
  induction l as [|x l IH]; simpl; [reflexivity|].
  destruct (f x); simpl; now rewrite IH.
Qed.

(** ** The format check *)

Lemma str_match_true_iff (rx : regex) (text : option string) :
  str_match rx text = true
  <-> exists t, text = Some t /\ re_match rx t = true.
Proof.
  destruct text as [t|]; simpl; split.
  - intro H. now exists t.
  - intros (t' & E & H). now injection E as <-.
  - discriminate.
  - intros (t' & E & _). discriminate.
Qed.

(** C1. On a table that has the column, [check_col_format] returns [True]
    exactly when, on every row, the cell under the column has a text
    under [astype(str)] and that text matches the pattern; and when it
    returns [False] it has logged a FAIL message whose detail ends with
    the number of rows that do not match.  A missing cell is read as
    pandas reads it: as the text [None] or [nan] before version 3, as a
    cell without text, which matches nothing, from version 3 on. *)
Theorem check_col_format_verdict
    (pd_sample : DataFrame -> Z -> option Z -> result DataFrame)
    (now_stamp : string)
    (to_csv : string -> DataFrame -> bool -> result unit)
    (na_text : option string)
    (df : DataFrame) (col : string) (rx : regex)
    (df_desc inspector_title inspection_detail : option string)
    (logger : option Logger) (fail_sampler : option FailSampler) :
  has_col df col = true ->
  let r := check_col_format pd_sample now_stamp to_csv na_text df col rx
             df_desc inspector_title inspection_detail logger fail_sampler in
  (outcome r = Ok (Some true)
   <-> Forall (fun row =>
                 exists t, astype_str na_text (cell df col row) = Some t
                           /\ re_match rx t = true)
         (data df))
  /\ (outcome r = Ok (Some false) ->
        In (log_event logger ERROR
              (make_log_msg inspector_title (Some "FAIL")
                 (Some (py_or inspection_detail
                          ("Column " ++ col ++ " vs. pattern " ++ pattern rx)
                        ++ count_suffix
                             (List.length (non_matching na_text df col rx))))
                 df_desc "::"))
           (trace r)).
Proof.
  intros Hcol r. subst r. unfold check_col_format, getitem.
  rewrite Hcol, bind_ret, bind_lift_Ok, map_map.
  set (f := fun row => str_match rx (astype_str na_text (cell df col row))).
  assert (all (map f (data df)) = true
          <-> Forall (fun row =>
                        exists t, astype_str na_text (cell df col row) = Some t
                                  /\ re_match rx t = true) (data df)) as F.
  { rewrite all_map_Forall, !Forall_forall.
    split; intros H row Hr; apply str_match_true_iff; now apply H. }
  destruct (all (map f (data df))) eqn:A.
  - rewrite log_or_print_event, bind_emit. simpl. split.
    + split; [intros _; now apply F | reflexivity].
    + discriminate.
  - rewrite log_or_print_event, bind_emit. split.
    + split.
      * cbn [outcome snd]. intro H.
        match goal with
        | H : context [sample_fails ?p ?n ?t ?s ?d ?m ?fn ?i] |- _ =>
            destruct (outcome_after_sampling p n t s d m fn i (Some false))
              as [E|[e E]]; cbv zeta in E; rewrite E in H; discriminate
        end.
      * intro H. apply F in H. discriminate.
    + intros _. left. rewrite sum_invert_map. reflexivity.
Qed.

Lemma check_col_format_verdict_witness :
  (outcome (check_col_format leading_draw a_stamp csv_ok None_text ids_table
              "id" letter_A_digit None (Some "check_col_format") None None
              None)
   = Ok (Some false)
   /\ In (Print "check_col_format::FAIL::Column id vs. pattern ^A\d$ 1 violations")
        (trace (check_col_format leading_draw a_stamp csv_ok None_text
                  ids_table "id" letter_A_digit None
                  (Some "check_col_format") None None None)))
  /\ In (Print "check_col_format::FAIL::Column b vs. pattern ^[a-z]+$ 1 violations")
        (trace (check_col_format leading_draw a_stamp csv_ok None_text
                  gaps_table "b" lower_letters None
                  (Some "check_col_format") None None None))
  /\ In (Print "check_col_format::FAIL::Column b vs. pattern ^[a-z]+$ 1 violations")
        (trace (check_col_format leading_draw a_stamp csv_ok None
                  gaps_table "b" lower_letters None
                  (Some "check_col_format") None None None)).
Proof.
  split; [split; [reflexivity|] | split].
  - exact (proj2 (check_col_format_verdict leading_draw a_stamp csv_ok
                    None_text ids_table "id" letter_A_digit None
                    (Some "check_col_format") None None None eq_refl)
             eq_refl).
  - exact (proj2 (check_col_format_verdict leading_draw a_stamp csv_ok
                    None_text gaps_table "b" lower_letters None
                    (Some "check_col_format") None None None eq_refl)
             eq_refl).
  - exact (proj2 (check_col_format_verdict leading_draw a_stamp csv_ok
                    None gaps_table "b" lower_letters None
                    (Some "check_col_format") None None None eq_refl)
             eq_refl).
Defined.

Lemma check_col_format_missing_run
    (pd_sample : DataFrame -> Z -> option Z -> result DataFrame)
    (now_stamp : string)
    (to_csv : string -> DataFrame -> bool -> result unit)
    (na_text : option string)
    (df : DataFrame) (col : string) (rx : regex)
    (df_desc inspector_title inspection_detail : option string)
    (logger : option Logger) (fail_sampler : option FailSampler) :
  has_col df col = false ->
  check_col_format pd_sample now_stamp to_csv na_text df col rx df_desc
      inspector_title
    inspection_detail logger fail_sampler
  = ([log_event logger WARNING
        ("Column " ++ col ++ " not found in dataframe"
         ++ (if truthy df_desc then " " ++ py_or df_desc "" else ""))],
     Raise (KeyError col)).
Proof.
  intro H. unfold check_col_format, getitem.
  rewrite H, log_or_print_event, bind_emit, bind_lift_Raise. reflexivity.
Qed.

(** C7. On a table that lacks the column, [check_col_format] sends the
    warning to the logger, or prints it when there is none, and then
    raises [KeyError] at [df[col]]: nothing else is logged and no verdict
    is returned. *)
Theorem check_col_format_missing_column
    (pd_sample : DataFrame -> Z -> option Z -> result DataFrame)
    (now_stamp : string)
    (to_csv : string -> DataFrame -> bool -> result unit)
    (na_text : option string)
    (df : DataFrame) (col : string) (rx : regex)
    (df_desc inspector_title inspection_detail : option string)
    (logger : option Logger) (fail_sampler : option FailSampler) :
  has_col df col = false ->
  let r := check_col_format pd_sample now_stamp to_csv na_text df col rx df_desc
             inspector_title inspection_detail logger fail_sampler in
  trace r = [log_event logger WARNING
               ("Column " ++ col ++ " not found in dataframe"
                ++ (if truthy df_desc then " " ++ py_or df_desc "" else ""))]
  /\ outcome r = Raise (KeyError col)
  /\ forall verdict, outcome r <> Ok verdict.
Proof.
  intros H r. subst r.
  rewrite (check_col_format_missing_run _ _ _ _ _ _ _ _ _ _ _ _ H).
  repeat split. discriminate.
Qed.

Lemma check_col_format_missing_column_witness :
  trace (check_col_format leading_draw a_stamp csv_ok None_text ids_table "name"
           letter_A_digit (Some "ids") (Some "check_col_format") None None
           None)
  = [Print "Column name not found in dataframe ids"]
  /\ outcome (check_col_format leading_draw a_stamp csv_ok None_text ids_table "name"
                letter_A_digit (Some "ids") (Some "check_col_format") None
                None None)
     = Raise (KeyError "name").
Proof.
  pose proof (check_col_format_missing_column leading_draw a_stamp csv_ok
      None_text
                ids_table
                "name" letter_A_digit (Some "ids") (Some "check_col_format")
                None None None eq_refl) as [T [O _]].
  split; [exact T | exact O].
Defined.

(** ** The duplicate check *)

Lemma any_duplicated_iff (keys : list (list value)) :
  any (map (fun k => (2 <=? count_occ key_eq_dec keys k)%nat) keys) = true
  <-> exists k, (2 <= count_occ key_eq_dec keys k)%nat.
Proof.
  unfold any. rewrite existsb_exists. split.
  - intros (b & Hb & E). apply in_map_iff in Hb as (k & <- & _).
    exists k. now apply Nat.leb_le.
  - intros (k & Hk). exists true. split; [|reflexivity].
    apply in_map_iff. exists k. split; [now apply Nat.leb_le|].
    apply (count_occ_In key_eq_dec). lia.
Qed.

Lemma key_eqb_eq (a b : list value) : key_eqb a b = true <-> a = b.
Proof.
  unfold key_eqb. destruct (key_eq_dec a b); split; congruence.
Qed.

Lemma key_same_eq (a b : list value) :
  key_same a b = true <-> map canon a = map canon b.
Proof. apply key_eqb_eq. Qed.

(** A key occurs twice in a list exactly when it stands at two
    positions. *)
Lemma count_occ_two (l : list (list value)) (k : list value) :
  (2 <= count_occ key_eq_dec l k)%nat
  <-> exists i j, (i < j)%nat /\ nth_error l i = Some k
                  /\ nth_error l j = Some k.
Proof.
  induction l as [|x l IH]; simpl.
  - split; [lia|]. intros (i & j & _ & H & _). destruct i; discriminate.
  - destruct (key_eq_dec x k) as [->|N]; split.
    + intro H.
      assert (In k l) as Hin by (apply (count_occ_In key_eq_dec); lia).
      apply In_nth_error in Hin as (n & Hn).
      exists 0%nat, (S n). repeat split; [lia | exact Hn].
    + intros (i & j & Hij & Hi & Hj).
      destruct j as [|j]; [lia|]. simpl in Hj.
      destruct i as [|i].
      * apply nth_error_In in Hj.
        apply (count_occ_In key_eq_dec) in Hj. lia.
      * simpl in Hi.
        assert (2 <= count_occ key_eq_dec l k)%nat
          by (apply IH; exists i, j; repeat split; [lia|assumption..]).
        lia.
    + intro H. apply IH in H as (i & j & Hij & Hi & Hj).
      exists (S i), (S j). repeat split; [lia|assumption..].
    + intros (i & j & Hij & Hi & Hj).
      destruct j as [|j]; [lia|]. simpl in Hj.
      destruct i as [|i]; [simpl in Hi; congruence|]. simpl in Hi.
      apply IH. exists i, j. repeat split; [lia|assumption..].
Qed.

(** Two different rows hold the same combination exactly when some
    combination, in its representative form, is counted twice. *)
Lemma has_duplicate_iff_count (df : DataFrame) (sub : list string) :
  has_duplicate df sub
  <-> exists k, (2 <= count_occ key_eq_dec (canon_keys df sub) k)%nat.
Proof.
  unfold has_duplicate, canon_keys. split.
  - intros (i & j & r1 & r2 & Hij & H1 & H2 & K).
    apply key_same_eq in K.
    exists (map canon (key_of df sub r1)). apply count_occ_two.
    destruct (Nat.lt_total i j) as [L|[E|L]]; [|contradiction|].
    + exists i, j. rewrite !nth_error_map, H1, H2. simpl.
      split; [exact L|]. split; [reflexivity | now rewrite K].
    + exists j, i. rewrite !nth_error_map, H1, H2. simpl.
      split; [exact L|]. split; [now rewrite K | reflexivity].
  - intros (k & H). apply count_occ_two in H as (i & j & Hij & Hi & Hj).
    rewrite nth_error_map in Hi, Hj.
    destruct (nth_error (data df) i) as [r1|] eqn:E1; [|discriminate].
    destruct (nth_error (data df) j) as [r2|] eqn:E2; [|discriminate].
    simpl in Hi, Hj.
    exists i, j, r1, r2. split; [lia|]. split; [exact E1|].
    split; [exact E2|]. apply key_same_eq. congruence.
Qed.

(** On a table that has every checked column, with at least one column
    checked, [duplicated] gives the mask of the rows whose combination
    is counted twice, the empty mask when the table has no rows. *)
Lemma duplicated_mask (df : DataFrame) (cols : option (list string)) :
  subset_labels df cols <> [] ->
  missing_label df (subset_labels df cols) = None ->
  exists dup,
    duplicated df cols = Ok dup
    /\ (any dup = true
        <-> exists k,
              (2 <= count_occ key_eq_dec
                      (canon_keys df (subset_labels df cols)) k)%nat).
Proof.
  intros Hs Hm. unfold duplicated.
  destruct (df_empty df) eqn:E.
  - exists []. split; [reflexivity|]. split; [discriminate|].
    intros (k & H). exfalso.
    unfold df_empty in E. unfold canon_keys in H.
    destruct (columns df) as [|c cs] eqn:C.
    + destruct (subset_labels df cols) as [|x xs]; [contradiction|].
      simpl in Hm. unfold has_col in Hm. rewrite C in Hm. discriminate.
    + destruct (data df); [simpl in H; lia | discriminate].
  - rewrite Hm.
    destruct (subset_labels df cols) as [|x xs] eqn:S; [contradiction|].
    eexists. split; [reflexivity|]. apply any_duplicated_iff.
Qed.

(** X10. On a table that has every checked column, with at least one
    column checked, [check_no_duplicate] returns [True] exactly when no
    two different rows hold the same combination of cells under the
    columns, cells being compared as Python compares them. *)
Lemma check_no_duplicate_True_iff
    (pd_sample : DataFrame -> Z -> option Z -> result DataFrame)
    (now_stamp : string)
    (to_csv : string -> DataFrame -> bool -> result unit)
    (df : DataFrame) (cols : option (list string))
    (df_desc inspector_title inspection_detail : option string)
    (logger : option Logger) (fail_sampler : option FailSampler) :
  subset_labels df cols <> [] ->
  missing_label df (subset_labels df cols) = None ->
  (outcome (check_no_duplicate pd_sample now_stamp to_csv df cols df_desc
              inspector_title inspection_detail logger fail_sampler)
   = Ok (Some true)
   <-> ~ has_duplicate df (subset_labels df cols)).
Proof.
  intros Hs Hm. rewrite has_duplicate_iff_count.
  destruct (duplicated_mask df cols Hs Hm) as (dup & D & A).
  unfold check_no_duplicate. rewrite D, bind_lift_Ok.
  destruct (any dup); cbn [negb].
  - rewrite log_or_print_event, bind_emit. cbn [outcome snd]. split.
    + intro H.
      match goal with
      | H : context [sample_fails ?p ?n ?t ?s ?d ?m ?f ?i] |- _ =>
          destruct (outcome_after_sampling p n t s d m f i None)
            as [E|[e E]]; cbv zeta in E; rewrite E in H; discriminate
      end.
    + intro H. exfalso. apply H. now apply A.
  - rewrite log_or_print_event, bind_emit. simpl. split; [|reflexivity].
    intros _ H. apply A in H. discriminate.
Qed.

(** [check_no_duplicate] never returns [False]. *)
Lemma check_no_duplicate_never_False
    (pd_sample : DataFrame -> Z -> option Z -> result DataFrame)
    (now_stamp : string)
    (to_csv : string -> DataFrame -> bool -> result unit)
    (df : DataFrame) (cols : option (list string))
    (df_desc inspector_title inspection_detail : option string)
    (logger : option Logger) (fail_sampler : option FailSampler) :
  outcome (check_no_duplicate pd_sample now_stamp to_csv df cols df_desc
             inspector_title inspection_detail logger fail_sampler)
  <> Ok (Some false).
Proof.
  unfold check_no_duplicate.
  destruct (duplicated df cols) as [dup|e]; [|discriminate].
  rewrite bind_lift_Ok.
  destruct (any dup); cbn [negb]; rewrite log_or_print_event, bind_emit;
    cbn [outcome snd]; [|discriminate].
  match goal with
  | |- context [sample_fails ?p ?n ?t ?s ?d ?m ?f ?i] =>
      destruct (outcome_after_sampling p n t s d m f i None) as [E|[e E]];
        cbv zeta in E; rewrite E; discriminate
  end.
Qed.

(** C2. On the rows [(1,2), (1,2), (3,4)] checked on columns [a] and [b],
    [check_no_duplicate] logs a FAIL message that counts both rows of the
    duplicated pair, and then returns [None], not [False]. *)
Theorem check_no_duplicate_on_duplicated_pair :
  check_no_duplicate leading_draw a_stamp csv_ok pairs_table (Some ["a"; "b"]) None
    (Some "check_no_duplicate") None None None
  = ([Print "check_no_duplicate::FAIL::Duplicates found in cols ['a', 'b'] 2 violations"],
     Ok None).
Proof. reflexivity. Qed.

(** C10. The [inspection_detail] handed to [check_no_duplicate] has no
    effect: two calls that differ in it alone emit the same events, hand
    the same file name to the sampler and end with the same outcome; so
    do two [NoDuplicateInspector]s built with different details. *)
Theorem check_no_duplicate_ignores_detail
    (pd_sample : DataFrame -> Z -> option Z -> result DataFrame)
    (now_stamp : string)
    (to_csv : string -> DataFrame -> bool -> result unit)
    (df : DataFrame) (cols : option (list string))
    (df_desc inspector_title detail1 detail2 : option string)
    (logger : option Logger) (fail_sampler : option FailSampler) :
  check_no_duplicate pd_sample now_stamp to_csv df cols df_desc inspector_title
    detail1 logger fail_sampler
  = check_no_duplicate pd_sample now_stamp to_csv df cols df_desc
      inspector_title
      detail2 logger fail_sampler
  /\ NoDuplicateInspector_inspect pd_sample now_stamp to_csv
       (NoDuplicateInspector_init cols inspector_title detail1 logger
          fail_sampler) df df_desc
     = NoDuplicateInspector_inspect pd_sample now_stamp to_csv
         (NoDuplicateInspector_init cols inspector_title detail2 logger
            fail_sampler) df df_desc.
Proof. split; reflexivity. Qed.

(** ** The missing-value check *)

Lemma any_invert (l : list bool) : any (invert l) = negb (all l).
Proof.
  unfold any, invert, all.
  induction l as [|b l IH]; simpl; [reflexivity|].
  rewrite IH. now destruct b.
Qed.

Lemma sum_isnull_zero (l : list value) :
  (sum (map isnull l) =? 0)%nat = negb (existsb isnull l).
Proof.
  unfold sum. induction l as [|v l IH]; simpl; [reflexivity|].
  destruct (isnull v); simpl; [reflexivity | exact IH].
Qed.

Lemma all_columns_ok (df : DataFrame) (cols : list string) :
  all (map (fun c =>
         (sum (map isnull (map (cell df c) (data df))) =? 0)%nat) cols)
  = negb (has_missing df cols).
Proof.
  unfold all, has_missing.
  induction cols as [|c cols IH]; simpl; [reflexivity|].
  rewrite IH, sum_isnull_zero.
  now destruct (existsb isnull (map (cell df c) (data df))).
Qed.

Lemma sampling_emits_no_message
    (pd_sample : DataFrame -> Z -> option Z -> result DataFrame)
    (now_stamp : string)
    (to_csv : string -> DataFrame -> bool -> result unit)
    (sampler : option FailSampler) (df : DataFrame)
    (mask : list bool) (filename : string) (index : option bool)
    (v : option bool) (e : event) :
  In e (trace (bind (sample_fails pd_sample now_stamp to_csv sampler df mask
                       filename index) (fun _ => ret v))) ->
  is_message e = false.
Proof.
  destruct sampler as [s|]; simpl; [|tauto].
  unfold write_sample.
  destruct (take_sample pd_sample s df mask) as [sample|x]; simpl;
    [|intuition (subst; reflexivity)].
  destruct (to_csv _ sample _) as [[]|x]; simpl;
    intuition (subst; reflexivity).
Qed.

(** C8. When some checked column holds a missing value and no logger is
    given, the failing branch of [check_missing_values] emits no message
    at all, neither to a logger nor to standard output; without a sampler
    the call leaves no trace and just returns [False]. *)
Theorem check_missing_values_fail_is_silent
    (pd_sample : DataFrame -> Z -> option Z -> result DataFrame)
    (now_stamp : string)
    (to_csv : string -> DataFrame -> bool -> result unit)
    (df : DataFrame) (cols : option (list string))
    (df_desc inspector_title inspection_detail : option string)
    (fail_sampler : option FailSampler) :
  missing_label df (cols_or_all df cols) = None ->
  has_missing df (cols_or_all df cols) = true ->
  let r := check_missing_values pd_sample now_stamp to_csv df cols df_desc
             inspector_title inspection_detail None fail_sampler in
  (forall e, In e (trace r) -> is_message e = false)
  /\ (fail_sampler = None -> r = ([], Ok (Some false))).
Proof.
  intros Hm Hnull r. subst r. unfold check_missing_values.
  rewrite Hm, all_columns_ok, Hnull. cbn [negb log_or_skip].
  rewrite bind_ret. split.
  - intros e. apply sampling_emits_no_message.
  - intros ->. reflexivity.
Qed.

Lemma check_missing_values_fail_is_silent_witness :
  check_missing_values leading_draw a_stamp csv_ok gaps_table None None
    (Some "check_missing_values") None None None
  = ([], Ok (Some false)).
Proof.
  exact (proj2 (check_missing_values_fail_is_silent leading_draw a_stamp csv_ok
                  gaps_table None None (Some "check_missing_values") None
                  None eq_refl eq_refl) eq_refl).
Defined.

(** ** The inspectors *)

(** [inspect] hands the bound configuration, the table and the
    description to the check function of its class, and returns what that
    function returns. *)
Lemma inspect_forwards
    (pd_sample : DataFrame -> Z -> option Z -> result DataFrame)
    (now_stamp : string)
    (to_csv : string -> DataFrame -> bool -> result unit)
    (na_text : option string)
    (tolerance : Type)
    (np_isclose : tolerance -> value -> value -> bool)
    (no_tolerance : tolerance) (self : Inspector tolerance)
    (df : DataFrame) (df_desc : option string) :
  inspect pd_sample now_stamp to_csv tolerance np_isclose no_tolerance na_text
      self df df_desc
  = match self with
    | ColumnFormat _ i =>
        check_col_format pd_sample now_stamp to_csv na_text df (cf_check_col i)
          (cf_regex i) df_desc (title (cf_base i)) (detail (cf_base i))
          (logger (cf_base i)) (fail_sampler (cf_base i))
    | GroupAggregate _ i =>
        check_groupby_agg pd_sample now_stamp to_csv tolerance np_isclose df
          (ga_by _ i) (ga_check_col _ i) (ga_agg_func _ i)
          (ga_desired_agg_val _ i) (ga_almost_equal _ i)
          (ga_agg_func_name _ i) (ga_compare_tolerance _ i) df_desc
          (title (ga_base _ i)) (detail (ga_base _ i))
          (logger (ga_base _ i)) (fail_sampler (ga_base _ i))
    | IdenticalWithinGroup _ i =>
        check_groupby_identical pd_sample now_stamp to_csv tolerance np_isclose
          no_tolerance df (ig_by i) (ig_check_col i) df_desc
          (title (ig_base i)) (detail (ig_base i))
          (logger (ig_base i)) (fail_sampler (ig_base i))
    | NoDuplicate _ i =>
        check_no_duplicate pd_sample now_stamp to_csv df (nd_cols i) df_desc
          (title (nd_base i)) (detail (nd_base i))
          (logger (nd_base i)) (fail_sampler (nd_base i))
    | MissingValues _ i =>
        check_missing_values pd_sample now_stamp to_csv df (mv_cols i) df_desc
          (title (mv_base i)) (detail (mv_base i))
          (logger (mv_base i)) (fail_sampler (mv_base i))
    end.
Proof. destruct self; reflexivity. Qed.

(** [check_groupby_identical] returns neither [True] nor [False]. *)
Lemma check_groupby_identical_never_bool
    (pd_sample : DataFrame -> Z -> option Z -> result DataFrame)
    (now_stamp : string)
    (to_csv : string -> DataFrame -> bool -> result unit)
    (tolerance : Type)
    (np_isclose : tolerance -> value -> value -> bool)
    (no_tolerance : tolerance) (df : DataFrame) (by_ : labels)
    (check_col : option string)
    (df_desc inspector_title inspection_detail : option string)
    (logger : option Logger) (fail_sampler : option FailSampler)
    (b : bool) :
  outcome (check_groupby_identical pd_sample now_stamp to_csv tolerance
      np_isclose
             no_tolerance df by_ check_col df_desc inspector_title
             inspection_detail logger fail_sampler)
  <> Ok (Some b).
Proof.
  unfold check_groupby_identical.
  match goal with
  | |- outcome (bind ?m _) <> _ => destruct m as [t [v|e]]
  end; simpl; discriminate.
Qed.

(** C3. An [IdenticalWithinGroupInspector] on the rows
    [(1,10), (1,10), (2,5)], grouped by [group] and checked on [value],
    logs PASS and returns [None]: what [check_groupby_identical] returns,
    but not a boolean. *)
Theorem inspect_identical_within_group_returns_None :
  inspect leading_draw a_stamp csv_ok unit exact_isclose tt None_text
    (IdenticalWithinGroup unit
       (IdenticalWithinGroupInspector_init (Label "group") (Some "value")
          false (Some "Identical Within Group Check") None None None))
    groups_table None
  = ([Print "Identical Within Group Check::PASS::value grouped by group"],
     Ok None).
Proof. reflexivity. Qed.

(** ** The failing branch of the checks *)

Lemma append_assoc (a b c : string) : (a ++ b) ++ c = a ++ (b ++ c).
Proof. induction a as [|x a IH]; simpl; [reflexivity | now rewrite IH]. Qed.

Lemma length_append (a b : string) :
  String.length (a ++ b) = (String.length a + String.length b)%nat.
Proof. induction a as [|x a IH]; simpl; [reflexivity | now rewrite IH]. Qed.

Lemma ends_with_unfold (suffix s : string) :
  ends_with suffix s
  = if (String.length s <? String.length suffix)%nat then false
    else if s =? suffix then true
    else match s with
         | EmptyString => false
         | String _ r => ends_with suffix r
         end.
Proof. destruct s; reflexivity. Qed.

Lemma ends_with_append (a suffix : string) :
  ends_with suffix (a ++ suffix) = true.
Proof.
  induction a as [|x a IH].
  - simpl. rewrite ends_with_unfold, Nat.ltb_irrefl, String.eqb_refl.
    reflexivity.
  - rewrite ends_with_unfold.
    replace (String.length (String x a ++ suffix) <? String.length suffix)%nat
      with false
      by (symmetry; apply Nat.ltb_ge; rewrite length_append; lia).
    destruct (String x a ++ suffix =? suffix); [reflexivity | exact IH].
Qed.

Lemma failed_columns (f : string -> bool) (cols : list string) :
  map fst (filter (fun cb : string * bool => negb (snd cb))
             (combine cols (map f cols)))
  = filter (fun k => negb (f k)) cols.
Proof.
  induction cols as [|c cols IH]; simpl; [reflexivity|].
  destruct (f c); simpl; now rewrite IH.
Qed.

Section FailingBranch.

Variable pd_sample : DataFrame -> Z -> option Z -> result DataFrame.
Variable now_stamp : string.
Variable to_csv : string -> DataFrame -> bool -> result unit.
Variable tolerance : Type.
Variable np_isclose : tolerance -> value -> value -> bool.
Variable no_tolerance : tolerance.
Variable na_text : option string.

(** What the log-then-sample end of a failing branch leaves in the
    trace. *)
Lemma fail_tail_events (logger : option Logger)
    (sampler : option FailSampler) (msg filename : string)
    (df : DataFrame) (mask : list bool) (index : option bool)
    (v : option bool) :
  let r := bind (log_or_print logger ERROR msg)
             (fun _ => bind (sample_fails pd_sample now_stamp to_csv sampler
                 df mask
                               filename index)
                         (fun _ => ret v)) in
  In (log_event logger ERROR msg) (trace r)
  /\ (forall s, sampler = Some s ->
        In (WriteSample df mask (Some filename) index) (trace r)).
Proof.
  intro r. subst r. rewrite log_or_print_event, bind_emit. split.
  - now left.
  - intros s ->. right. apply trace_bind_l.
    unfold sample_fails. rewrite bind_emit. now left.
Qed.

(** The detail of the logged FAIL message as the witness, and the two
    facts of [fail_tail_events] to close the goal. *)
Ltac pick_logged_detail :=
  match goal with
  | |- context [log_or_print _ ERROR (make_log_msg _ _ (Some ?d) _ _)] =>
      exists d
  end.

Ltac close_with_fail_tail :=
  match goal with
  | |- context [bind (log_or_print ?l ERROR ?m)
                  (fun _ => bind (sample_fails _ _ _ ?s ?d ?k ?f ?i)
                              (fun _ => ret ?v))] =>
      let L := fresh "L" in
      let W := fresh "W" in
      destruct (fail_tail_events l s m f d k i v) as [L W];
      split; [exact L | intros; eauto]
  end.

Lemma check_groupby_agg_fail (df : DataFrame) (by_ : labels)
    (check_col : option string) (agg_func : agg_function)
    (desired_agg_val : value) (almost_equal : bool)
    (agg_func_name : string) (compare_tolerance : tolerance)
    (df_desc inspector_title inspection_detail : option string)
    (logger : option Logger) (sampler : option FailSampler)
    (g : list (list value * value)) :
  group_and_aggregate df by_ check_col agg_func = Ok g ->
  any (aggregate_mask tolerance np_isclose g desired_agg_val almost_equal
         compare_tolerance) = true ->
  let r := check_groupby_agg pd_sample now_stamp to_csv tolerance np_isclose
      df by_
             check_col agg_func desired_agg_val almost_equal agg_func_name
             compare_tolerance df_desc inspector_title inspection_detail
             logger sampler in
  let n := sum (aggregate_mask tolerance np_isclose g desired_agg_val
                  almost_equal compare_tolerance) in
  let t := Some (py_or inspector_title "Group Aggregate Check") in
  exists d,
    ends_with (count_suffix n) d = true /\
    In (log_event logger ERROR
          (make_log_msg t (Some "FAIL") (Some d) df_desc "::")) (trace r) /\
    (forall s, sampler = Some s ->
       exists df' mask index,
         In (WriteSample df' mask
               (Some (make_log_msg t (Some "FAIL") (Some d) df_desc " "))
               index) (trace r)).
Proof.
  intros G A r n t. subst r n t.
  unfold check_groupby_agg. rewrite G, bind_lift_Ok.
  unfold aggregate_mask in *. rewrite any_invert in A.
  apply negb_true_iff in A. rewrite A.
  pick_logged_detail. split; [apply ends_with_append|].
  close_with_fail_tail.
Qed.

(** C4, as the code has it.  When the mask a check decides on holds a
    violation, [check_col_format], [check_groupby_agg],
    [check_groupby_identical] and [check_no_duplicate] log a FAIL message
    whose detail ends with the number of violations, and hand the sampler,
    when there is one, that message rebuilt with a space for the
    separator.  [check_missing_values] puts no count into its detail: it
    keeps the detail it was given or names the columns that hold a
    missing value, sends the FAIL message built from it to the logger when
    there is one, and hands the sampler the same message rebuilt with a
    space for the separator. *)
Theorem fail_message_and_sample_filename (c : check_call tolerance)
    (m : list bool) :
  verdict_mask tolerance np_isclose no_tolerance na_text c = Ok m ->
  any m = true ->
  (appends_count tolerance c = true ->
     counted_fail pd_sample now_stamp to_csv tolerance np_isclose no_tolerance
         na_text c
       (sum m))
  /\ (forall ctx cols, c = CallMissingValues tolerance ctx cols ->
        let r := run pd_sample now_stamp to_csv tolerance np_isclose
            no_tolerance na_text c in
        let d := missing_detail ctx cols in
        (forall lg, c_logger ctx = Some lg ->
           In (Log lg ERROR
                 (make_log_msg (c_title ctx) (Some "FAIL") (Some d)
                    (c_desc ctx) "::")) (trace r))
        /\ (forall s, c_sampler ctx = Some s ->
              exists df mask index,
                In (WriteSample df mask
                      (Some (make_log_msg (c_title ctx) (Some "FAIL")
                               (Some d) (c_desc ctx) " ")) index)
                   (trace r))).
Proof.
  intros V A.
  destruct c as [ctx col rx | ctx cols | ctx by_ check_col agg_func val
                 almost name tol | ctx by_ check_col | ctx cols].
  - (* check_col_format *)
    split; [intros _ | intros ? ? E; discriminate E].
    unfold counted_fail, verdict_mask in *. cbn [context_of logged_title run].
    destruct (getitem (c_df ctx) col) as [column|e] eqn:G; [|discriminate].
    injection V as <-.
    unfold check_col_format. rewrite G.
    unfold getitem in G.
    destruct (has_col (c_df ctx) col); [|discriminate].
    rewrite bind_ret, bind_lift_Ok.
    rewrite any_invert in A. apply negb_true_iff in A. rewrite A.
    pick_logged_detail. split; [apply ends_with_append|].
    close_with_fail_tail.
  - (* check_missing_values *)
    split; [discriminate|]. intros ctx' cols' E. injection E as <- <-.
    cbn [run]. unfold verdict_mask in V. unfold check_missing_values.
    destruct (missing_label (c_df ctx) (cols_or_all (c_df ctx) cols));
      [discriminate|].
    injection V as <-.
    rewrite any_invert in A. apply negb_true_iff in A. rewrite A.
    rewrite failed_columns. fold (missing_detail ctx cols).
    split.
    + intros lg ->. cbn [log_or_skip]. rewrite bind_emit. now left.
    + intros s ->. exists (c_df ctx).
      match goal with
      | |- context [sample_fails _ _ _ _ _ ?k _ ?i] => exists k, i
      end.
      apply trace_bind_r with (a := tt).
      * now destruct (c_logger ctx).
      * apply trace_bind_l. unfold sample_fails. rewrite bind_emit. now left.
  - (* check_groupby_agg *)
    split; [intros _ | intros ? ? E; discriminate E].
    unfold counted_fail, verdict_mask in *. cbn [context_of logged_title run].
    destruct (group_and_aggregate (c_df ctx) by_ check_col agg_func)
      as [g|e] eqn:G; [|discriminate].
    injection V as <-.
    exact (check_groupby_agg_fail (c_df ctx) by_ check_col agg_func val
             almost name tol (c_desc ctx) (c_title ctx) (c_detail ctx)
             (c_logger ctx) (c_sampler ctx) g G A).
  - (* check_groupby_identical *)
    split; [intros _ | intros ? ? E; discriminate E].
    unfold counted_fail, verdict_mask in *. cbn [context_of logged_title run].
    destruct (group_and_aggregate (c_df ctx) by_ check_col nunique_le_1)
      as [g|e] eqn:G; [|discriminate].
    injection V as <-.
    unfold check_groupby_identical.
    match goal with
    | |- context [check_groupby_agg _ _ _ _ _ _ _ _ _ _ _ ?nm _ _ _ ?dt _ _] =>
        destruct (check_groupby_agg_fail (c_df ctx) by_ check_col
                    nunique_le_1 (VBool true) false nm no_tolerance
                    (c_desc ctx) (c_title ctx) dt
                    (c_logger ctx) (c_sampler ctx) g G A)
          as (d & E & L & W)
    end.
    exists d. split; [exact E|]. split.
    + apply trace_bind_l. exact L.
    + intros s Hs. destruct (W s Hs) as (df' & mask & index & H).
      exists df', mask, index. apply trace_bind_l. exact H.
  - (* check_no_duplicate *)
    split; [intros _ | intros ? ? E; discriminate E].
    unfold counted_fail, verdict_mask in *. cbn [context_of logged_title run].
    unfold check_no_duplicate. rewrite V, bind_lift_Ok, A. cbn [negb].
    exists (("Duplicates found in cols " ++ str_opt_list cols)
            ++ count_suffix (sum m)).
    split; [apply ends_with_append|].
    rewrite append_assoc. close_with_fail_tail.
Qed.

End FailingBranch.

Lemma fail_message_and_sample_filename_witness :
  counted_fail leading_draw a_stamp csv_ok unit exact_isclose tt None_text
      ids_call 1
  /\ In (Log a_logger ERROR
           "check_missing_values::FAIL::Missing values found in columns ['b']")
        (trace (run leading_draw a_stamp csv_ok unit exact_isclose tt
            None_text gaps_call)).
Proof.
  split.
  - exact (proj1 (fail_message_and_sample_filename leading_draw a_stamp csv_ok
      unit
                    exact_isclose tt None_text ids_call [false; false; true]
                    eq_refl eq_refl) eq_refl).
  - exact (proj1 (proj2 (fail_message_and_sample_filename leading_draw
                           a_stamp csv_ok unit exact_isclose tt None_text
                               gaps_call
                           [false; true] eq_refl eq_refl)
                    _ None eq_refl) a_logger eq_refl).
Defined.

(** C4, as the claim states it, fails on [check_missing_values]: on a
    table with one missing value in column [b] the mask holds one
    violation, and the FAIL message that reaches the logger has the detail
    [Missing values found in columns ['b']], with no count at its end. *)
Lemma check_missing_values_appends_no_count :
  verdict_mask unit exact_isclose tt None_text gaps_call = Ok [false; true]
  /\ any [false; true] = true
  /\ ~ counted_fail leading_draw a_stamp csv_ok unit exact_isclose tt
      None_text gaps_call
         (sum [false; true]).
Proof.
  split; [reflexivity|]. split; [reflexivity|].
  intros (d & E & Hin & _).
  destruct d as [|x d].
  - vm_compute in E. discriminate.
  - cbn in Hin. destruct Hin as [H|[H|[H|[]]]]; try discriminate.
    inversion H; subst.
    vm_compute in E. discriminate.
Qed.

(** * Further properties of the checks *)

(** ** More on running a check *)

Lemma trace_bind_inv {A B} (m : M A) (k : A -> M B) (e : event) :
  In e (trace (bind m k)) ->
  In e (trace m) \/ exists a, outcome m = Ok a /\ In e (trace (k a)).
Proof.
  destruct m as [t [a|x]]; simpl; [|tauto].
  destruct (k a) as [t' r] eqn:K. simpl. intro H.
  apply in_app_or in H as [H|H]; [now left|].
  right. exists a. rewrite K. now split.
Qed.

Lemma bind_ret_r {A B} (m : M A) (v : B) :
  bind m (fun _ => ret v)
  = (trace m, match outcome m with Ok _ => Ok v | Raise e => Raise e end).
Proof.
  destruct m as [t [a|x]]; simpl; [|reflexivity]. now rewrite app_nil_r.
Qed.

Section Sampling.

Variable pd_sample : DataFrame -> Z -> option Z -> result DataFrame.
Variable now_stamp : string.
Variable to_csv : string -> DataFrame -> bool -> result unit.

(** The sampling step of a failing branch, in full: nothing without a
    sampler; with one, the call, and then the file when [take_sample] and
    [to_csv] succeed, the exception of whichever raises otherwise. *)
Lemma sampling_step (sampler : option FailSampler) (df : DataFrame)
    (mask : list bool) (filename : string) (index : option bool)
    (v : option bool) :
  bind (sample_fails pd_sample now_stamp to_csv sampler df mask filename
          index)
    (fun _ => ret v)
  = match sampler with
    | None => ([], Ok v)
    | Some s =>
        match take_sample pd_sample s df mask with
        | Ok sample =>
            match to_csv (sample_path now_stamp s filename) sample
                    (csv_index index) with
            | Ok _ =>
                ([WriteSample df mask (Some filename) index;
                  ToCsv (sample_path now_stamp s filename) sample
                    (csv_index index)],
                 Ok v)
            | Raise e =>
                ([WriteSample df mask (Some filename) index], Raise e)
            end
        | Raise e => ([WriteSample df mask (Some filename) index], Raise e)
        end
    end.
Proof.
  destruct sampler as [s|]; [|reflexivity].
  unfold sample_fails, write_sample.
  destruct (take_sample pd_sample s df mask) as [sample|e];
    [|reflexivity].
  cbv zeta. rewrite bind_emit, bind_lift_Ok.
  match goal with
  | |- context [lift (to_csv ?a sample ?i)] =>
      change a with (sample_path now_stamp s filename);
      change i with (csv_index index)
  end.
  destruct (to_csv (sample_path now_stamp s filename) sample
              (csv_index index)) as [[]|e]; reflexivity.
Qed.

Lemma sampling_call_inv (sampler : option FailSampler) (df : DataFrame)
    (mask : list bool) (filename : string) (index : option bool)
    (v : option bool) (df' : DataFrame) (mask' : list bool)
    (filename' : option string) (index' : option bool) :
  In (WriteSample df' mask' filename' index')
     (trace (bind (sample_fails pd_sample now_stamp to_csv sampler df mask
                     filename index) (fun _ => ret v))) ->
  df' = df /\ mask' = mask /\ filename' = Some filename /\ index' = index.
Proof.
  rewrite sampling_step.
  destruct sampler as [s|]; [|intros []].
  destruct (take_sample pd_sample s df mask) as [sample|e];
    [destruct (to_csv _ sample _)|]; simpl;
    intros [E|H]; try (injection E as <- <- <- <-; auto);
    try destruct H as [E|[]]; try destruct H; discriminate.
Qed.

End Sampling.

Lemma existsb_map {A B} (f : B -> bool) (g : A -> B) (l : list A) :
  existsb f (map g l) = existsb (fun x => f (g x)) l.
Proof. induction l as [|x l IH]; simpl; [reflexivity | now rewrite IH]. Qed.

Lemma has_missing_false_iff (df : DataFrame) (cols : list string) :
  has_missing df cols = false
  <-> forall c row, In c cols -> In row (data df) ->
        isnull (cell df c row) = false.
Proof.
  unfold has_missing. split.
  - intros H c row Hc Hr.
    destruct (isnull (cell df c row)) eqn:N; [|reflexivity].
    rewrite <- H. symmetry. apply existsb_exists. exists c. split; [exact Hc|].
    apply existsb_exists. exists (cell df c row). split; [|exact N].
    now apply in_map.
  - intro H. apply not_true_is_false. intro E.
    apply existsb_exists in E as (c & Hc & E).
    apply existsb_exists in E as (v & Hv & N).
    apply in_map_iff in Hv as (row & <- & Hr).
    rewrite (H c row Hc Hr) in N. discriminate.
Qed.

(** ** The missing-value check, continued *)

(** X1. When every checked column exists, [check_missing_values] returns
    [True] exactly when no row holds a missing value under a checked
    column (every column of the table when [cols] is [None] or empty); it
    then logs one PASS message at INFO level and nothing else. *)
Theorem check_missing_values_verdict
    (pd_sample : DataFrame -> Z -> option Z -> result DataFrame)
    (now_stamp : string)
    (to_csv : string -> DataFrame -> bool -> result unit)
    (df : DataFrame) (cols : option (list string))
    (df_desc inspector_title inspection_detail : option string)
    (logger : option Logger) (fail_sampler : option FailSampler) :
  missing_label df (cols_or_all df cols) = None ->
  let r := check_missing_values pd_sample now_stamp to_csv df cols df_desc
             inspector_title inspection_detail logger fail_sampler in
  (outcome r = Ok (Some true)
   <-> forall c row, In c (cols_or_all df cols) -> In row (data df) ->
         isnull (cell df c row) = false)
  /\ (outcome r = Ok (Some true) ->
        trace r = [log_event logger INFO
                     (make_log_msg inspector_title (Some "PASS")
                        (Some (py_or inspection_detail
                                 ("No missing values in "
                                  ++ str_list (cols_or_all df cols))))
                        df_desc "::")]).
Proof.
  intros Hm r. subst r. unfold check_missing_values.
  rewrite Hm, all_columns_ok. rewrite <- has_missing_false_iff.
  destruct (has_missing df (cols_or_all df cols)); cbn [negb].
  - assert (forall (m : M unit) (k : M (option bool)),
              (outcome k = Ok (Some false) \/ exists e, outcome k = Raise e) ->
              outcome (bind m (fun _ => k)) <> Ok (Some true)) as NT.
    { intros [t [[]|x]] [t' o]; simpl; [|discriminate].
      intros [->|[e ->]]; discriminate. }
    split.
    + split; [|discriminate]. intro H. exfalso. revert H. apply NT.
      apply outcome_after_sampling.
    + intro H. exfalso. revert H. apply NT.
      apply outcome_after_sampling.
  - rewrite log_or_print_event, bind_emit. simpl. split; [tauto|reflexivity].
Qed.

Lemma check_missing_values_verdict_witness :
  outcome (check_missing_values leading_draw a_stamp csv_ok pairs_table
             (Some ["a"]) None (Some "check_missing_values") None None None)
  = Ok (Some true).
Proof.
  apply (proj1 (check_missing_values_verdict leading_draw a_stamp csv_ok
      pairs_table
                  (Some ["a"]) None (Some "check_missing_values") None None
                  None eq_refl)).
  intros c row [<-|[]] [<-|[<-|[<-|[]]]]; reflexivity.
Defined.

Lemma fail_index_all_columns (df : DataFrame) (cs : list string) :
  map (fun row => existsb isnull
         (key_of df (filter (fun k => negb
            (sum (map isnull (map (cell df k) (data df))) =? 0)%nat) cs) row))
    (data df)
  = null_rows_mask df cs.
Proof.
  unfold null_rows_mask. apply map_ext_in. intros row Hr.
  unfold key_of. rewrite existsb_map.
  induction cs as [|c cs IH]; simpl; [reflexivity|].
  rewrite sum_isnull_zero, negb_involutive.
  destruct (existsb isnull (map (cell df c) (data df))) eqn:E; simpl.
  - now rewrite IH.
  - rewrite IH.
    replace (isnull (cell df c row)) with false; [reflexivity|].
    symmetry. apply not_true_is_false. intro N.
    assert (existsb isnull (map (cell df c) (data df)) = true) as T.
    { apply existsb_exists. exists (cell df c row).
      split; [now apply in_map | exact N]. }
    congruence.
Qed.

(** X2. The rows [check_missing_values] hands to the sampler are exactly
    the rows that hold a missing value under some checked column, also
    though the mask is computed from the failing columns alone; the table
    handed over is the checked table and the csv is asked for without the
    row index. *)
Theorem check_missing_values_sampled_rows
    (pd_sample : DataFrame -> Z -> option Z -> result DataFrame)
    (now_stamp : string)
    (to_csv : string -> DataFrame -> bool -> result unit)
    (df : DataFrame) (cols : option (list string))
    (df_desc inspector_title inspection_detail : option string)
    (logger : option Logger) (fail_sampler : option FailSampler)
    (df' : DataFrame) (mask : list bool) (filename : option string)
    (index : option bool) :
  In (WriteSample df' mask filename index)
     (trace (check_missing_values pd_sample now_stamp to_csv df cols df_desc
               inspector_title inspection_detail logger fail_sampler)) ->
  df' = df /\ index = Some false
  /\ mask = null_rows_mask df (cols_or_all df cols).
Proof.
  unfold check_missing_values.
  destruct (missing_label df (cols_or_all df cols)); [intros []|].
  rewrite all_columns_ok.
  destruct (has_missing df (cols_or_all df cols)); cbn [negb].
  - rewrite failed_columns. intro H.
    apply trace_bind_inv in H as [H|(a & _ & H)].
    + destruct logger; simpl in H; intuition discriminate.
    + apply sampling_call_inv in H as (-> & -> & _ & ->).
      rewrite fail_index_all_columns. auto.
  - rewrite log_or_print_event, bind_emit. simpl.
    destruct logger; simpl; intuition discriminate.
Qed.

Lemma check_missing_values_sampled_rows_witness :
  gaps_table = gaps_table /\ Some false = Some false
  /\ [false; true; false] = null_rows_mask gaps_table ["a"; "b"].
Proof.
  apply (check_missing_values_sampled_rows leading_draw a_stamp csv_ok
      gaps_table
           None None (Some "check_missing_values") None (Some a_logger)
           (Some head_sampler) gaps_table [false; true; false]
           (Some "check_missing_values FAIL Missing values found in columns ['b']")
           (Some false)).
  right. left. reflexivity.
Defined.

(** ** The group checks *)

Lemma key_same_refl (k : list value) : key_same k k = true.
Proof. now apply key_same_eq. Qed.

Lemma key_same_sym (a b : list value) :
  key_same a b = true -> key_same b a = true.
Proof. rewrite !key_same_eq. congruence. Qed.

Lemma key_same_trans (a b c : list value) :
  key_same a b = true -> key_same b c = true -> key_same a c = true.
Proof. rewrite !key_same_eq. congruence. Qed.

Lemma value_same_eq (a b : value) : value_same a b = true <-> canon a = canon b.
Proof.
  unfold value_same, value_eqb.
  destruct (value_eq_dec (canon a) (canon b)); split; congruence.
Qed.

Lemma insert_key_sub (k r : list value) (ks : list (list value)) :
  In r (insert_key k ks) -> r = k \/ In r ks.
Proof.
  induction ks as [|x ks IH]; simpl.
  - intuition.
  - destruct (key_same k x); [simpl; intuition|].
    destruct (key_leb k x); simpl; intuition.
Qed.

Lemma insert_key_covers (k k' : list value) (ks : list (list value)) :
  key_same k k' = true \/ (exists r, In r ks /\ key_same r k' = true) ->
  exists r, In r (insert_key k ks) /\ key_same r k' = true.
Proof.
  induction ks as [|x ks IH]; simpl.
  - intros [H|(r & [] & _)]. exists k. simpl. auto.
  - destruct (key_same k x) eqn:E.
    + intros [H|(r & Hr & H)].
      * exists x. split; [now left|].
        apply key_same_trans with k; [now apply key_same_sym | exact H].
      * exists r. auto.
    + destruct (key_leb k x).
      * intros [H|(r & Hr & H)]; [exists k | exists r]; simpl; auto.
      * intros [H|(r & [<-|Hr] & H)].
        -- destruct IH as (r & Hr & Hk); [now left|]. exists r. simpl. auto.
        -- exists x. simpl. auto.
        -- destruct IH as (r' & Hr' & Hk); [right; now exists r|].
           exists r'. simpl. auto.
Qed.

Lemma fold_insert_key_sub (r : list value) (l acc : list (list value)) :
  In r (fold_left (fun a k => insert_key k a) l acc) -> In r l \/ In r acc.
Proof.
  revert acc. induction l as [|k l IH]; intro acc; simpl; [auto|].
  intro H. apply IH in H as [H|H]; [auto|].
  apply insert_key_sub in H. intuition.
Qed.

Lemma fold_insert_key_covers (k' : list value) (l acc : list (list value)) :
  (exists x, In x l /\ key_same x k' = true)
  \/ (exists r, In r acc /\ key_same r k' = true) ->
  exists r, In r (fold_left (fun a k => insert_key k a) l acc)
            /\ key_same r k' = true.
Proof.
  revert acc. induction l as [|k l IH]; intro acc; simpl.
  - intros [(x & [] & _)|H]. exact H.
  - intros [(x & [<-|Hx] & H)|H]; apply IH.
    + right. apply insert_key_covers. now left.
    + left. now exists x.
    + right. apply insert_key_covers. now right.
Qed.

(** The groups are labelled by combinations that occur on some row and
    hold no missing value, and every such combination is Python-equal to
    the label of a group. *)
Lemma group_keys_sub (k : list value) (keys : list (list value)) :
  In k (group_keys keys) -> In k keys /\ existsb isnull k = false.
Proof.
  unfold group_keys. intro H.
  apply fold_insert_key_sub in H as [H|[]].
  apply filter_In in H as (H & N). apply negb_true_iff in N. auto.
Qed.

Lemma group_keys_covers (k : list value) (keys : list (list value)) :
  In k keys -> existsb isnull k = false ->
  exists r, In r (group_keys keys) /\ key_same r k = true.
Proof.
  intros H N. unfold group_keys. apply fold_insert_key_covers.
  left. exists k. split; [|apply key_same_refl].
  apply filter_In. split; [exact H | now rewrite N].
Qed.

Lemma rows_of_group_same (df : DataFrame) (by_cols : list string)
    (k k' : list value) :
  key_same k k' = true ->
  rows_of_group df by_cols k = rows_of_group df by_cols k'.
Proof.
  intro H. apply key_same_eq in H. unfold rows_of_group.
  apply filter_ext. intro row. unfold key_same. now rewrite H.
Qed.

Lemma groupby_agg_Ok_inv (df : DataFrame) (by_ : labels) (check_col : string)
    (agg_func : agg_function) (g : list (list value * value)) :
  groupby_agg df by_ check_col agg_func = Ok g ->
  g = map (fun k =>
             (k, fn_apply agg_func
                   (map (cell df check_col)
                      (rows_of_group df (label_list by_) k))))
        (group_keys (map (key_of df (label_list by_)) (data df))).
Proof.
  unfold groupby_agg.
  destruct (label_list by_) as [|c cs] eqn:L; [discriminate|].
  destruct (missing_label df (c :: cs)); [discriminate|].
  destruct (has_col df check_col); [|discriminate].
  intro H. injection H as <-. reflexivity.
Qed.

Lemma all_true_iff (l : list bool) :
  all l = true <-> forall b, In b l -> b = true.
Proof. unfold all. now rewrite forallb_forall. Qed.

(** Every group passes the test [ok] exactly when every row whose key
    holds no missing value belongs to a group that passes. *)
Lemma groups_all_ok (df : DataFrame) (by_cols : list string)
    (check_col : string) (agg_func : agg_function) (ok : value -> bool) :
  all (map (fun kv : list value * value => ok (snd kv))
         (map (fun k =>
                 (k, fn_apply agg_func
                       (map (cell df check_col) (rows_of_group df by_cols k))))
            (group_keys (map (key_of df by_cols) (data df))))) = true
  <-> forall row, In row (data df) ->
        existsb isnull (key_of df by_cols row) = false ->
        ok (fn_apply agg_func
              (map (cell df check_col)
                 (rows_of_group df by_cols (key_of df by_cols row)))) = true.
Proof.
  rewrite map_map. cbn [snd]. rewrite all_true_iff. split.
  - intros H row Hr Hn.
    destruct (group_keys_covers (key_of df by_cols row)
                (map (key_of df by_cols) (data df)))
      as (r & Hin & Hs); [now apply in_map | exact Hn |].
    rewrite <- (rows_of_group_same df by_cols r _ Hs).
    apply H. apply in_map_iff. now exists r.
  - intros H b Hb. apply in_map_iff in Hb as (k & <- & Hk).
    apply group_keys_sub in Hk as (Hk & Hn).
    apply in_map_iff in Hk as (row & <- & Hr). now apply H.
Qed.

(** X3. When grouping and aggregating succeed, [check_groupby_agg] returns
    [True] exactly when the aggregate of every group equals the desired
    value (or is close to it, in the tolerant mode), a group being the
    rows that share a combination without missing value under [by],
    combinations being compared as Python compares them; it never
    returns [None]. *)
Theorem check_groupby_agg_verdict
    (pd_sample : DataFrame -> Z -> option Z -> result DataFrame)
    (now_stamp : string)
    (to_csv : string -> DataFrame -> bool -> result unit)
    (tolerance : Type)
    (np_isclose : tolerance -> value -> value -> bool)
    (df : DataFrame) (by_ : labels) (check_col : string)
    (agg_func : agg_function) (desired_agg_val : value)
    (almost_equal : bool) (agg_func_name : string)
    (compare_tolerance : tolerance)
    (df_desc inspector_title inspection_detail : option string)
    (logger : option Logger) (fail_sampler : option FailSampler)
    (g : list (list value * value)) :
  check_col <> "" ->
  groupby_agg df by_ check_col agg_func = Ok g ->
  let r := check_groupby_agg pd_sample now_stamp to_csv tolerance np_isclose
             df by_ (Some check_col) agg_func desired_agg_val almost_equal
             agg_func_name compare_tolerance df_desc inspector_title
             inspection_detail logger fail_sampler in
  let ok v := if almost_equal
              then np_isclose compare_tolerance v desired_agg_val
              else py_eq v desired_agg_val in
  (outcome r = Ok (Some true)
   <-> forall row, In row (data df) ->
         existsb isnull (key_of df (label_list by_) row) = false ->
         ok (fn_apply agg_func
               (map (cell df check_col)
                  (rows_of_group df (label_list by_)
                     (key_of df (label_list by_) row)))) = true)
  /\ outcome r <> Ok None.
Proof.
  intros Hne G r ok. subst r.
  pose proof (groupby_agg_Ok_inv _ _ _ _ _ G) as Eg.
  unfold check_groupby_agg, group_and_aggregate.
  assert (truthy (Some check_col) = true) as T.
  { simpl. destruct (check_col =? "") eqn:E; [|reflexivity].
    apply String.eqb_eq in E. contradiction. }
  rewrite T. cbn [str_opt]. rewrite G, bind_lift_Ok.
  pose proof (groups_all_ok df (label_list by_) check_col agg_func ok) as A.
  rewrite <- Eg in A. fold ok.
  change (map (fun kv : list value * value =>
                 if almost_equal
                 then np_isclose compare_tolerance (snd kv) desired_agg_val
                 else py_eq (snd kv) desired_agg_val) g)
    with (map (fun kv : list value * value => ok (snd kv)) g).
  destruct (all (map (fun kv : list value * value => ok (snd kv)) g)).
  - rewrite log_or_print_event, bind_emit. simpl.
    split; [|discriminate]. split; [intros _; now apply A | reflexivity].
  - rewrite log_or_print_event, bind_emit. cbn [outcome snd].
    match goal with
    | |- context [sample_fails ?p ?n ?t ?s ?d ?m ?f ?i] =>
        destruct (outcome_after_sampling p n t s d m f i (Some false))
          as [E|[e E]]; cbv zeta in E; rewrite E
    end.
    + split; [|discriminate].
      split; [discriminate | intro H; apply A in H; discriminate].
    + split; [|discriminate].
      split; [discriminate | intro H; apply A in H; discriminate].
Qed.

Lemma check_groupby_agg_verdict_witness :
  outcome (check_groupby_agg leading_draw a_stamp csv_ok unit exact_isclose
             one_true_table (Label "group") (Some "value") agg_sum (VInt 20)
             false "infer" tt None None None None None)
  <> Ok None
  /\ (outcome (check_groupby_agg leading_draw a_stamp csv_ok unit
                 exact_isclose one_true_table (Label "group") (Some "value")
                 agg_sum (VInt 20) false "infer" tt None None None None None)
      = Ok (Some true)
      -> VInt 5 = VInt 20).
Proof.
  pose proof (check_groupby_agg_verdict leading_draw a_stamp csv_ok unit
                exact_isclose one_true_table (Label "group") "value" agg_sum
                (VInt 20) false "infer" tt None None None None None
                [([VInt 1], VInt 20); ([VInt 2], VInt 5)]
                ltac:(discriminate) eq_refl) as [V N].
  split; [exact N|]. intro H.
  pose proof (proj1 V H [VInt 2; VInt 5]
                (or_intror (or_intror (or_introl eq_refl))) eq_refl) as K.
  discriminate K.
Defined.

Lemma nodup_at_most_one (l : list value) :
  (List.length (nodup value_eq_dec l) <=? 1)%nat = true
  <-> forall x y, In x l -> In y l -> x = y.
Proof.
  rewrite Nat.leb_le. split.
  - intros H x y Hx Hy.
    apply (nodup_In value_eq_dec) in Hx, Hy.
    destruct (nodup value_eq_dec l) as [|a [|b t]]; simpl in *;
      [tauto | intuition congruence | lia].
  - intro H. pose proof (NoDup_nodup value_eq_dec l) as N.
    destruct (nodup value_eq_dec l) as [|a [|b t]] eqn:E; simpl; try lia.
    exfalso.
    assert (In a l) as Ha by (apply (nodup_In value_eq_dec); rewrite E; simpl;
        auto).
    assert (In b l) as Hb by (apply (nodup_In value_eq_dec); rewrite E; simpl;
        auto).
    inversion N as [|? ? Hn _]. apply Hn. left. symmetry. now apply H.
Qed.

(** A series has at most one distinct value exactly when any two of its
    cells are equal as Python compares them. *)
Lemma nunique_at_most_one (series : list value) :
  (nunique series <=? 1)%nat = true
  <-> forall x y, In x series -> In y series -> value_same x y = true.
Proof.
  unfold nunique. rewrite nodup_at_most_one. split.
  - intros H x y Hx Hy. apply value_same_eq.
    apply H; now apply in_map.
  - intros H a b Ha Hb.
    apply in_map_iff in Ha as (x & <- & Hx).
    apply in_map_iff in Hb as (y & <- & Hy).
    apply value_same_eq. now apply H.
Qed.

Lemma existsb_isnull_canon (k : list value) :
  existsb isnull (map canon k) = existsb isnull k.
Proof.
  induction k as [|v k IH]; simpl; [reflexivity|].
  rewrite IH. now destruct v.
Qed.

Lemma py_eq_bool_true (b : bool) : py_eq (VBool b) (VBool true) = b.
Proof. now destruct b. Qed.

Lemma identical_iff_all_ok (df : DataFrame) (by_ : labels)
    (check_col : string) (g : list (list value * value)) :
  groupby_agg df by_ check_col nunique_le_1 = Ok g ->
  (all (map (fun kv : list value * value => py_eq (snd kv) (VBool true)) g)
   = true
   <-> identical_within_groups df (label_list by_) check_col).
Proof.
  intro G. rewrite (groupby_agg_Ok_inv _ _ _ _ _ G).
  rewrite (groups_all_ok df (label_list by_) check_col nunique_le_1
             (fun v => py_eq v (VBool true))).
  unfold identical_within_groups, rows_of_group. cbn [nunique_le_1 fn_apply].
  split.
  - intros H r1 r2 H1 H2 Hn Hk.
    specialize (H r1 H1 Hn). rewrite py_eq_bool_true in H.
    apply (proj1 (nunique_at_most_one _) H).
    + apply in_map, filter_In. split; [exact H1 | apply key_same_refl].
    + apply in_map, filter_In. split; [exact H2 | now apply key_same_sym].
  - intros H row Hr Hn. rewrite py_eq_bool_true.
    apply nunique_at_most_one. intros x y Hx Hy.
    apply in_map_iff in Hx as (ra & <- & Ha).
    apply in_map_iff in Hy as (rb & <- & Hb).
    apply filter_In in Ha as (Ha & Ka). apply filter_In in Hb as (Hb & Kb).
    apply H; [exact Ha | exact Hb | |].
    + pose proof (proj1 (key_same_eq _ _) Ka) as Ka'.
      rewrite <- existsb_isnull_canon, Ka', existsb_isnull_canon. exact Hn.
    + apply key_same_trans with (key_of df (label_list by_) row);
        [exact Ka | now apply key_same_sym].
Qed.

(** The groups [check_groupby_agg] counts as violations under the
    aggregation of [check_groupby_identical] are the groups that hold
    more than one value. *)
Lemma violating_count (df : DataFrame) (by_ : labels) (check_col : string)
    (g : list (list value * value)) :
  groupby_agg df by_ check_col nunique_le_1 = Ok g ->
  sum (invert (map (fun kv : list value * value =>
                      py_eq (snd kv) (VBool true)) g))
  = List.length (violating_groups df (label_list by_) check_col).
Proof.
  intro G. rewrite (groupby_agg_Ok_inv _ _ _ _ _ G), map_map, sum_invert_map.
  unfold violating_groups. f_equal. apply filter_ext. intro k.
  cbn [snd nunique_le_1 fn_apply]. now rewrite py_eq_bool_true.
Qed.

Lemma py_or_nonempty (o : option string) (default : string) :
  default <> "" -> py_or o default <> "".
Proof.
  intro H. destruct o as [s|]; simpl; [|exact H].
  destruct (s =? "") eqn:E; [exact H|]. now apply String.eqb_neq.
Qed.

Lemma py_or_Some (s default : string) : s <> "" -> py_or (Some s) default = s.
Proof.
  intro H. simpl. apply String.eqb_neq in H. now rewrite H.
Qed.

Lemma sum_invert_pos (l : list bool) : all l = false -> (0 < sum (invert
    l))%nat.
Proof.
  unfold all, sum, invert.
  induction l as [|b l IH]; simpl; [discriminate|].
  destruct b; simpl; [exact IH | lia].
Qed.

(** X4. When grouping succeeds, what [check_groupby_identical] logs tells
    whether the column is constant within every group.  If any two rows
    that share a combination (without missing value) under [by] agree on
    [check_col], it logs one PASS message at INFO level and returns
    [None]; otherwise it logs a FAIL message at ERROR level whose detail
    ends with the number of groups that hold more than one value, which
    is positive.  Combinations and cells are compared as Python compares
    them. *)
Theorem check_groupby_identical_message
    (pd_sample : DataFrame -> Z -> option Z -> result DataFrame)
    (now_stamp : string)
    (to_csv : string -> DataFrame -> bool -> result unit)
    (tolerance : Type)
    (np_isclose : tolerance -> value -> value -> bool)
    (no_tolerance : tolerance)
    (df : DataFrame) (by_ : labels) (check_col : string)
    (df_desc inspector_title inspection_detail : option string)
    (logger : option Logger) (fail_sampler : option FailSampler)
    (g : list (list value * value)) :
  check_col <> "" ->
  groupby_agg df by_ check_col nunique_le_1 = Ok g ->
  let r := check_groupby_identical pd_sample now_stamp to_csv tolerance
             np_isclose no_tolerance df by_ (Some check_col) df_desc
             inspector_title inspection_detail logger fail_sampler in
  let t := Some (py_or inspector_title "Group Aggregate Check") in
  let d := py_or inspection_detail
             (check_col ++ " grouped by " ++ str_labels by_
              ++ " is identical within group?") in
  let n := List.length (violating_groups df (label_list by_) check_col) in
  (identical_within_groups df (label_list by_) check_col ->
     r = ([log_event logger INFO
             (make_log_msg t (Some "PASS") (Some d) df_desc "::")],
          Ok None))
  /\ (~ identical_within_groups df (label_list by_) check_col ->
        (0 < n)%nat
        /\ In (log_event logger ERROR
                 (make_log_msg t (Some "FAIL") (Some (d ++ count_suffix n))
                    df_desc "::")) (trace r)).
Proof.
  intros Hne G r t d n. subst r t n.
  pose proof (identical_iff_all_ok df by_ check_col g G) as I.
  pose proof (violating_count df by_ check_col g G) as C.
  assert (d <> "") as Hd.
  { apply py_or_nonempty. destruct check_col; [contradiction | discriminate]. }
  unfold check_groupby_identical, check_groupby_agg, group_and_aggregate.
  assert (truthy (Some check_col) = true) as T.
  { simpl. apply String.eqb_neq in Hne. now rewrite Hne. }
  rewrite T. cbn [str_opt]. fold d. rewrite (py_or_Some d _ Hd).
  rewrite G, bind_lift_Ok.
  destruct (all (map (fun kv : list value * value =>
                        py_eq (snd kv) (VBool true)) g)) eqn:A.
  - split.
    + intros _. rewrite log_or_print_event, bind_emit. reflexivity.
    + intro H. exfalso. apply H. now apply I.
  - split.
    + intro H. apply I in H. discriminate.
    + intros _. rewrite <- C. split; [apply (sum_invert_pos _ A)|].
      apply trace_bind_l. rewrite log_or_print_event, bind_emit.
      left. reflexivity.
Qed.

Lemma check_groupby_identical_message_witness :
  check_groupby_identical leading_draw a_stamp csv_ok unit exact_isclose tt
    one_true_table (Label "group") (Some "value") None
    (Some "check_group_identical") None None None
  = ([Print "check_group_identical::PASS::value grouped by group is identical within group?"],
     Ok None)
  /\ In (Print "check_group_identical::FAIL::value grouped by group is identical within group? 1 violations")
        (trace (check_groupby_identical leading_draw a_stamp csv_ok unit
                  exact_isclose tt mixed_table (Label "group")
                  (Some "value") None (Some "check_group_identical") None
                  None None)).
Proof.
  split.
  - apply (proj1 (check_groupby_identical_message leading_draw a_stamp
                    csv_ok unit exact_isclose tt one_true_table
                    (Label "group") "value"
                    None (Some "check_group_identical") None None None
                    [([VInt 1], VBool true); ([VInt 2], VBool true)]
                    ltac:(discriminate) eq_refl)).
    intros r1 r2 H1 H2 _.
    simpl in H1, H2.
    destruct H1 as [<-|[<-|[<-|[]]]]; destruct H2 as [<-|[<-|[<-|[]]]];
      try reflexivity; discriminate.
  - apply (proj2 (check_groupby_identical_message leading_draw a_stamp
                    csv_ok unit exact_isclose tt mixed_table
                    (Label "group") "value"
                    None (Some "check_group_identical") None None None
                    [([VInt 1], VBool false); ([VInt 2], VBool true)]
                    ltac:(discriminate) eq_refl)).
    intro H.
    specialize (H [VInt 1; VInt 10] [VInt 1; VInt 20]).
    discriminate H; simpl; auto.
Defined.

(** ** The verdict protocol, for every check *)

Lemma pair_trace_outcome {A} (m : M A) : m = (trace m, outcome m).
Proof. now destruct m. Qed.

Lemma emit_sampling_ret (e : event) (sf : M unit) (v1 v2 : option bool) :
  bind (e :: trace (bind sf (fun _ => ret v1)),
        outcome (bind sf (fun _ => ret v1))) (fun _ => ret v2)
  = (e :: trace (bind sf (fun _ => ret v2)),
     outcome (bind sf (fun _ => ret v2))).
Proof.
  destruct sf as [t [[]|x]]; simpl; [|reflexivity].
  now rewrite !app_nil_r.
Qed.

Lemma is_sampling_log_event (logger : option Logger) (lv : level)
    (msg : string) :
  is_sampling (log_event logger lv msg) = false.
Proof. now destruct logger. Qed.

Lemma make_log_msg_nonempty (title : option string) (status : string)
    (detail extra : option string) (sep : string) :
  status <> "" -> make_log_msg title (Some status) detail extra sep <> "".
Proof.
  destruct status as [|a r]; [contradiction|]. intros _ H.
  assert (has_char a (make_log_msg title (Some (String a r)) detail extra sep)
          = true) as C.
  { unfold make_log_msg. rewrite has_char_concat.
    apply orb_true_iff. left. apply existsb_exists.
    exists (String a r). split.
    - simpl. destruct (truthy title); [destruct title|]; simpl; auto.
    - simpl. now rewrite Ascii.eqb_refl. }
  rewrite H in C. discriminate.
Qed.

Lemma has_missing_empty (df : DataFrame) (cols : list string) :
  data df = [] -> has_missing df cols = false.
Proof.
  intro E. unfold has_missing. rewrite E. simpl.
  induction cols; simpl; auto.
Qed.

Section Protocol.

Variable pd_sample : DataFrame -> Z -> option Z -> result DataFrame.
Variable now_stamp : string.
Variable to_csv : string -> DataFrame -> bool -> result unit.
Variable tolerance : Type.
Variable np_isclose : tolerance -> value -> value -> bool.
Variable no_tolerance : tolerance.
Variable na_text : option string.

(** The three ways a call can go, by the mask it decides on.
    - The mask cannot be computed: the call raises, having emitted at most
      warnings.
    - The mask holds no violation: one PASS message at INFO level, and the
      passing value.
    - The mask holds a violation: the FAIL message at ERROR level (absent
      only when [check_missing_values] has no logger), then the sampling
      step, named by the FAIL message rebuilt with a space. *)
Lemma run_cases (c : check_call tolerance) :
  match verdict_mask tolerance np_isclose no_tolerance na_text c with
  | Raise e =>
      exists pre,
        run pd_sample now_stamp to_csv tolerance np_isclose no_tolerance
            na_text c
        = (pre, Raise e)
        /\ forall ev, In ev pre ->
             exists msg, ev = log_event (logger_of tolerance c) WARNING msg
  | Ok m =>
      if any m then
        exists msgs d df mask,
          (forall ev, In ev msgs ->
             ev = log_event (logger_of tolerance c) ERROR
                    (verdict_msg tolerance c "FAIL" d "::"))
          /\ run pd_sample now_stamp to_csv tolerance np_isclose no_tolerance
              na_text c
             = ((msgs
                 ++ trace (sampling_of pd_sample now_stamp to_csv tolerance c df
                             mask (verdict_msg tolerance c "FAIL" d " ")
                             (sample_index tolerance c)))%list,
                outcome (sampling_of pd_sample now_stamp to_csv tolerance c df
                           mask (verdict_msg tolerance c "FAIL" d " ")
                           (sample_index tolerance c)))
      else
        exists d,
          run pd_sample now_stamp to_csv tolerance np_isclose no_tolerance
              na_text c
          = ([log_event (logger_of tolerance c) INFO
                       (verdict_msg tolerance c "PASS" d "::")],
                    Ok (pass_value tolerance c))
  end.
Proof.
  destruct c as [ctx col rx | ctx cols | ctx by_ check_col agg_func val
                 almost name tol | ctx by_ check_col | ctx cols];
    unfold sampling_of, verdict_msg, logger_of, sampler_of;
    cbn [verdict_mask run context_of logged_title pass_value fail_value
         sample_index].
  - (* check_col_format *)
    unfold getitem. destruct (has_col (c_df ctx) col) eqn:Hc.
    + unfold check_col_format, getitem.
      rewrite Hc, bind_ret, bind_lift_Ok, any_invert.
      destruct (all _); cbn [negb]; rewrite log_or_print_event, bind_emit.
      * eexists. reflexivity.
      * eexists [_], _, _, _. split; [|reflexivity].
        intros ev [<-|[]]. reflexivity.
    + rewrite (check_col_format_missing_run _ _ _ _ _ _ _ _ _ _ _ _ Hc).
      eexists. split; [reflexivity|]. intros ev [<-|[]]. eauto.
  - (* check_missing_values *)
    unfold check_missing_values.
    destruct (missing_label (c_df ctx) (cols_or_all (c_df ctx) cols)).
    + exists []. split; [reflexivity | intros ev []].
    + rewrite any_invert. destruct (all _); cbn [negb].
      * rewrite log_or_print_event, bind_emit. eexists. reflexivity.
      * destruct (c_logger ctx) as [lg|]; cbn [log_or_skip].
        -- rewrite bind_emit. eexists [_], _, _, _.
           split; [|reflexivity]. intros ev [<-|[]]. reflexivity.
        -- rewrite bind_ret. exists [].
           eexists _, _, _. split; [intros ev []|].
           apply pair_trace_outcome.
  - (* check_groupby_agg *)
    unfold check_groupby_agg.
    destruct (group_and_aggregate (c_df ctx) by_ check_col agg_func).
    + rewrite bind_lift_Ok. unfold aggregate_mask. rewrite any_invert.
      destruct (all _); cbn [negb]; rewrite log_or_print_event, bind_emit.
      * eexists. reflexivity.
      * eexists [_], _, _, _. split; [|reflexivity].
        intros ev [<-|[]]. reflexivity.
    + exists []. split; [reflexivity | intros ev []].
  - (* check_groupby_identical *)
    unfold check_groupby_identical, check_groupby_agg.
    destruct (group_and_aggregate (c_df ctx) by_ check_col nunique_le_1).
    + rewrite bind_lift_Ok. unfold aggregate_mask. rewrite any_invert.
      destruct (all _); cbn [negb]; rewrite log_or_print_event, bind_emit.
      * eexists. reflexivity.
      * rewrite emit_sampling_ret.
        eexists [_], _, _, _. split; [|reflexivity].
        intros ev [<-|[]]. reflexivity.
    + exists []. split; [reflexivity | intros ev []].
  - (* check_no_duplicate *)
    unfold check_no_duplicate.
    destruct (duplicated (c_df ctx) cols) as [dup|e].
    + rewrite bind_lift_Ok.
      destruct (any dup); cbn [negb]; rewrite log_or_print_event, bind_emit.
      * eexists [_], _, _, _. split; [|reflexivity].
        intros ev [<-|[]]. reflexivity.
      * eexists. reflexivity.
    + exists []. split; [reflexivity | intros ev []].
Qed.

Lemma sampling_of_outcome (c : check_call tolerance) (df : DataFrame)
    (mask : list bool) (filename : string) (index : option bool) :
  outcome (sampling_of pd_sample now_stamp to_csv tolerance c df mask filename
             index)
  = Ok (fail_value tolerance c)
  \/ exists e,
       outcome (sampling_of pd_sample now_stamp to_csv tolerance c df mask
                  filename index) = Raise e.
Proof. apply outcome_after_sampling. Qed.

(** X5. When the mask a check decides on holds no violation, the call
    logs exactly one PASS message at INFO level, calls no sampler, writes
    no file and returns [True] ([None] from [check_groupby_identical]).
    This is the case, in particular, for every table without rows on
    which the mask can be computed. *)
Theorem no_violation_passes (c : check_call tolerance) (m : list bool) :
  verdict_mask tolerance np_isclose no_tolerance na_text c = Ok m ->
  (data (c_df (context_of tolerance c)) = [] -> any m = false)
  /\ (any m = false ->
        exists d,
          run pd_sample now_stamp to_csv tolerance np_isclose no_tolerance
              na_text c
          = ([log_event (logger_of tolerance c) INFO
                (verdict_msg tolerance c "PASS" d "::")],
             Ok (pass_value tolerance c))).
Proof.
  intro V. split.
  - intro E.
    destruct c as [ctx col rx | ctx cols | ctx by_ check_col agg_func val
                   almost name tol | ctx by_ check_col | ctx cols];
      cbn [verdict_mask context_of] in *.
    + unfold getitem in V. destruct (has_col (c_df ctx) col); [|discriminate].
      injection V as <-. rewrite E. reflexivity.
    + destruct (missing_label (c_df ctx) (cols_or_all (c_df ctx) cols));
        [discriminate|].
      injection V as <-.
      rewrite any_invert, all_columns_ok, (has_missing_empty _ _ E).
      reflexivity.
    + destruct (group_and_aggregate (c_df ctx) by_ check_col agg_func)
        as [g|x] eqn:G; [|discriminate].
      injection V as <-. unfold group_and_aggregate in G.
      destruct (truthy check_col).
      * apply groupby_agg_Ok_inv in G. rewrite E in G. subst g. reflexivity.
      * destruct (label_list by_); [discriminate|].
        destruct (missing_label (c_df ctx) (s :: l)); discriminate.
    + destruct (group_and_aggregate (c_df ctx) by_ check_col nunique_le_1)
        as [g|x] eqn:G; [|discriminate].
      injection V as <-. unfold group_and_aggregate in G.
      destruct (truthy check_col).
      * apply groupby_agg_Ok_inv in G. rewrite E in G. subst g. reflexivity.
      * destruct (label_list by_); [discriminate|].
        destruct (missing_label (c_df ctx) (s :: l)); discriminate.
    + unfold duplicated, df_empty in V. rewrite E in V.
      destruct (columns (c_df ctx)); injection V as <-; reflexivity.
  - intro A. pose proof (run_cases c) as R. rewrite V, A in R. exact R.
Qed.

(** X6. When the mask cannot be computed, because a referenced column is
    absent or nothing can be grouped, the call raises that exception and
    logs no verdict: what it has emitted by then is at most a warning. *)
Theorem schema_error_aborts (c : check_call tolerance) (e : exn) :
  verdict_mask tolerance np_isclose no_tolerance na_text c = Raise e ->
  outcome (run pd_sample now_stamp to_csv tolerance np_isclose no_tolerance
      na_text c)
  = Raise e
  /\ forall ev,
       In ev (trace (run pd_sample now_stamp to_csv tolerance np_isclose
                       no_tolerance na_text c)) ->
       is_sampling ev = false
       /\ exists msg, ev = log_event (logger_of tolerance c) WARNING msg.
Proof.
  intro V. pose proof (run_cases c) as R. rewrite V in R.
  destruct R as (pre & -> & W). split; [reflexivity|].
  intros ev H. destruct (W ev H) as (msg & ->).
  split; [apply is_sampling_log_event | eauto].
Qed.

(** X7. A call that returns [True] has done nothing but log one PASS
    message at INFO level: no warning, no call of the sampler, no file. *)
Theorem true_verdict_is_quiet (c : check_call tolerance) :
  outcome (run pd_sample now_stamp to_csv tolerance np_isclose no_tolerance
      na_text c)
  = Ok (Some true) ->
  exists d,
    run pd_sample now_stamp to_csv tolerance np_isclose no_tolerance na_text c
    = ([log_event (logger_of tolerance c) INFO
          (verdict_msg tolerance c "PASS" d "::")],
       Ok (Some true)).
Proof.
  intro H. pose proof (run_cases c) as R.
  destruct (verdict_mask tolerance np_isclose no_tolerance na_text c) as [m|e].
  - destruct (any m).
    + destruct R as (msgs & d & df & mask & _ & R). rewrite R in H.
      cbn [outcome snd] in H. exfalso.
      destruct (sampling_of_outcome c df mask
                  (verdict_msg tolerance c "FAIL" d " ")
                  (sample_index tolerance c)) as [E|[x E]];
        rewrite E in H; [|discriminate].
      destruct c; discriminate.
    + destruct R as (d & R). exists d. rewrite R in H |- *.
      cbn [outcome snd] in H. now rewrite H.
  - destruct R as (pre & R & _). rewrite R in H. discriminate.
Qed.

Lemma sample_path_named (s : FailSampler) (filename : string) :
  filename <> "" ->
  sample_path now_stamp s filename = path_join (save_dir s) filename.
Proof.
  intro H. unfold sample_path. now rewrite py_or_Some.
Qed.

(** X8. Once a call has handed rows to the sampler, the sampler and the
    file system decide how the call ends.  If [take_sample] raises (a
    random sample larger than the flagged rows, say), or if it returns a
    sample and [to_csv] raises (the directory does not exist, say), the
    call raises the same exception, no file is written and no verdict is
    returned; the FAIL message went out before.  If both succeed, the
    sample is written to the csv named by the call and the call returns
    the value of its failing branch. *)
Theorem sampler_decides_outcome (c : check_call tolerance)
    (s : FailSampler) (df : DataFrame) (mask : list bool)
    (filename : string) (index : option bool) :
  sampler_of tolerance c = Some s ->
  In (WriteSample df mask (Some filename) index)
     (trace (run pd_sample now_stamp to_csv tolerance np_isclose
               no_tolerance na_text c)) ->
  let r := run pd_sample now_stamp to_csv tolerance np_isclose no_tolerance
             na_text c in
  let unwritten := forall ev, In ev (trace r) -> is_csv ev = false in
  match take_sample pd_sample s df mask with
  | Raise e => outcome r = Raise e /\ unwritten
  | Ok sample =>
      match to_csv (sample_path now_stamp s filename) sample
              (csv_index index) with
      | Raise e => outcome r = Raise e /\ unwritten
      | Ok _ =>
          outcome r = Ok (fail_value tolerance c)
          /\ In (ToCsv (sample_path now_stamp s filename) sample
                   (csv_index index)) (trace r)
      end
  end.
Proof.
  intros Hs H r unwritten. subst r unwritten.
  pose proof (run_cases c) as R.
  destruct (verdict_mask tolerance np_isclose no_tolerance na_text c)
    as [m|x].
  - destruct (any m).
    + destruct R as (msgs & d & df0 & mask0 & Hm & R). rewrite R in H |- *.
      cbn [trace outcome fst snd] in *.
      apply in_app_or in H as [H|H].
      { apply Hm in H. pose proof (is_sampling_log_event
          (logger_of tolerance c) ERROR
          (verdict_msg tolerance c "FAIL" d "::")) as N.
        rewrite <- H in N. discriminate. }
      unfold sampling_of in *.
      apply sampling_call_inv in H as (-> & -> & E & ->).
      injection E as ->.
      rewrite sampling_step, Hs.
      assert (forall ev, In ev msgs -> is_csv ev = false) as Q.
      { intros ev Hev. apply Hm in Hev. subst ev.
        now destruct (logger_of tolerance c). }
      destruct (take_sample pd_sample s df0 mask0) as [sample|x];
        [destruct (to_csv _ sample _) as [[]|x]|]; simpl.
      * split; [reflexivity|]. apply in_or_app. right.
        right. left. reflexivity.
      * split; [reflexivity|]. intros ev Hev.
        apply in_app_or in Hev as [Hev|[<-|[]]]; [now apply Q|reflexivity].
      * split; [reflexivity|]. intros ev Hev.
        apply in_app_or in Hev as [Hev|[<-|[]]]; [now apply Q|reflexivity].
    + destruct R as (d & R). rewrite R in H. simpl in H.
      destruct H as [H|[]].
      pose proof (is_sampling_log_event (logger_of tolerance c) INFO
                    (verdict_msg tolerance c "PASS" d "::")) as N.
      rewrite H in N. discriminate.
  - destruct R as (pre & R & W). rewrite R in H. simpl in H.
    destruct (W _ H) as (msg & E).
    pose proof (is_sampling_log_event (logger_of tolerance c) WARNING msg)
      as N.
    rewrite <- E in N. discriminate.
Qed.

(** X9. Every csv a check writes is the file the sampler was called for:
    its path is [os.path.join] of the sampler's directory and the file
    name of that call, which is the FAIL message rebuilt with a space for
    the separator, and every message the call logged is that FAIL
    message with ['::'] for the separator.  So neither the
    [save_filename] the sampler was built with nor the time-stamped
    default name is ever used from a check.  The csv holds what
    [take_sample] returned for the table and mask of the call, and the
    row index is left out except for the two checks that sample the
    aggregate result. *)
Theorem sample_file_named_by_message (c : check_call tolerance)
    (path : string) (sample : DataFrame) (index : bool) :
  In (ToCsv path sample index)
     (trace (run pd_sample now_stamp to_csv tolerance np_isclose
               no_tolerance na_text c)) ->
  let r := run pd_sample now_stamp to_csv tolerance np_isclose no_tolerance
             na_text c in
  exists s d df mask,
    sampler_of tolerance c = Some s
    /\ In (WriteSample df mask (Some (verdict_msg tolerance c "FAIL" d " "))
             (sample_index tolerance c)) (trace r)
    /\ (forall ev, In ev (trace r) -> is_message ev = true ->
          ev = log_event (logger_of tolerance c) ERROR
                 (verdict_msg tolerance c "FAIL" d "::"))
    /\ path = path_join (save_dir s) (verdict_msg tolerance c "FAIL" d " ")
    /\ index = csv_index (sample_index tolerance c)
    /\ take_sample pd_sample s df mask = Ok sample.
Proof.
  intros H r. subst r. pose proof (run_cases c) as R.
  destruct (verdict_mask tolerance np_isclose no_tolerance na_text c)
    as [m|x].
  - destruct (any m).
    + destruct R as (msgs & d & df0 & mask0 & Hm & R). rewrite R in H |- *.
      cbn [trace fst] in *.
      apply in_app_or in H as [H|H].
      { apply Hm in H. pose proof (is_sampling_log_event
          (logger_of tolerance c) ERROR
          (verdict_msg tolerance c "FAIL" d "::")) as N.
        rewrite <- H in N. discriminate. }
      unfold sampling_of in *. rewrite sampling_step in H |- *.
      destruct (sampler_of tolerance c) as [s|]; [|destruct H].
      exists s, d, df0, mask0. split; [reflexivity|].
      assert (verdict_msg tolerance c "FAIL" d " " <> "") as Ne
        by (apply make_log_msg_nonempty; discriminate).
      destruct (take_sample pd_sample s df0 mask0) as [sample0|x];
        [destruct (to_csv _ sample0 _) as [[]|x]|]; simpl in H.
      * destruct H as [H|[H|[]]]; [discriminate|].
        injection H as <- <- <-.
        split; [apply in_or_app; right; now left|].
        split.
        { intros ev Hev Mev. apply in_app_or in Hev as [Hev|Hev];
            [now apply Hm|].
          destruct Hev as [<-|[<-|[]]]; discriminate. }
        split; [now apply sample_path_named|]. auto.
      * destruct H as [H|[]]. discriminate.
      * destruct H as [H|[]]. discriminate.
    + destruct R as (d & R). rewrite R in H. simpl in H.
      destruct H as [H|[]].
      pose proof (is_sampling_log_event (logger_of tolerance c) INFO
                    (verdict_msg tolerance c "PASS" d "::")) as N.
      rewrite H in N. discriminate.
  - destruct R as (pre & R & W). rewrite R in H. simpl in H.
    destruct (W _ H) as (msg & E).
    pose proof (is_sampling_log_event (logger_of tolerance c) WARNING msg)
      as N.
    rewrite <- E in N. discriminate.
Qed.

End Protocol.

Lemma no_violation_passes_witness :
  exists d,
    run leading_draw a_stamp csv_ok unit exact_isclose tt None_text
        unique_ids_call
    = ([Print (verdict_msg unit unique_ids_call "PASS" d "::")],
       Ok (Some true)).
Proof.
  exact (proj2 (no_violation_passes leading_draw a_stamp csv_ok unit
      exact_isclose
                  tt None_text unique_ids_call [false; false; false] eq_refl)
           eq_refl).
Defined.

Lemma schema_error_aborts_witness :
  outcome (run leading_draw a_stamp csv_ok unit exact_isclose tt None_text
      absent_column_call)
  = Raise (KeyError "name").
Proof.
  exact (proj1 (schema_error_aborts leading_draw a_stamp csv_ok unit
      exact_isclose
                  tt None_text absent_column_call (KeyError "name") eq_refl)).
Defined.

Lemma true_verdict_is_quiet_witness :
  exists d,
    run leading_draw a_stamp csv_ok unit exact_isclose tt None_text
        unique_ids_call
    = ([Print (verdict_msg unit unique_ids_call "PASS" d "::")],
       Ok (Some true)).
Proof.
  exact (true_verdict_is_quiet leading_draw a_stamp csv_ok unit exact_isclose
      tt None_text
           unique_ids_call eq_refl).
Defined.

Lemma sampler_decides_outcome_witness :
  (outcome (run leading_draw a_stamp csv_ok unit exact_isclose tt None_text
              ids_call)
   = Ok (Some false)
   /\ In (ToCsv "fail_samples/check_col_format FAIL Column id vs. pattern ^A\d$ 1 violations"
            (mkDataFrame ["id"] [[VStr "B1"]]) false)
         (trace (run leading_draw a_stamp csv_ok unit exact_isclose tt
                   None_text ids_call)))
  /\ outcome (run leading_draw a_stamp csv_ok unit exact_isclose tt None_text
                greedy_ids_call)
     = Raise (ValueError
         "Cannot take a larger sample than population when 'replace=False'")
  /\ outcome (run leading_draw a_stamp csv_no_dir unit exact_isclose tt
                None_text ids_call)
     = Raise (OSError "Cannot save file into a non-existent directory").
Proof.
  split; [|split].
  - exact (sampler_decides_outcome leading_draw a_stamp csv_ok unit
             exact_isclose tt None_text
             ids_call head_sampler ids_table [false; false; true]
             "check_col_format FAIL Column id vs. pattern ^A\d$ 1 violations"
             (Some false) eq_refl (or_intror (or_introl eq_refl))).
  - exact (proj1 (sampler_decides_outcome leading_draw a_stamp csv_ok unit
                    exact_isclose tt None_text greedy_ids_call greedy_sampler
                    ids_table [false; false; true]
                    "check_col_format FAIL Column id vs. pattern ^A\d$ 1 violations"
                    (Some false) eq_refl (or_intror (or_introl eq_refl)))).
  - exact (proj1 (sampler_decides_outcome leading_draw a_stamp csv_no_dir
                    unit exact_isclose tt None_text ids_call head_sampler
                    ids_table [false; false; true]
                    "check_col_format FAIL Column id vs. pattern ^A\d$ 1 violations"
                    (Some false) eq_refl (or_intror (or_introl eq_refl)))).
Defined.

Lemma sample_file_named_by_message_witness :
  exists s d df mask,
    sampler_of unit ids_call = Some s
    /\ In (WriteSample df mask (Some (verdict_msg unit ids_call "FAIL" d " "))
             (sample_index unit ids_call))
          (trace (run leading_draw a_stamp csv_ok unit exact_isclose tt
                    None_text ids_call))
    /\ (forall ev,
          In ev (trace (run leading_draw a_stamp csv_ok unit exact_isclose tt
                          None_text ids_call)) ->
          is_message ev = true ->
          ev = log_event (logger_of unit ids_call) ERROR
                 (verdict_msg unit ids_call "FAIL" d "::"))
    /\ "fail_samples/check_col_format FAIL Column id vs. pattern ^A\d$ 1 violations"
       = path_join (save_dir s) (verdict_msg unit ids_call "FAIL" d " ")
    /\ false = csv_index (sample_index unit ids_call)
    /\ take_sample leading_draw s df mask
       = Ok (mkDataFrame ["id"] [[VStr "B1"]]).
Proof.
  apply (sample_file_named_by_message leading_draw a_stamp csv_ok unit
           exact_isclose tt None_text ids_call
           "fail_samples/check_col_format FAIL Column id vs. pattern ^A\d$ 1 violations"
           (mkDataFrame ["id"] [[VStr "B1"]]) false).
  right. right. left. reflexivity.
Defined.

(** ** The duplicate check, continued *)

Lemma check_no_duplicate_True_iff_witness :
  ~ has_duplicate ids_table ["id"]
  /\ outcome (check_no_duplicate leading_draw a_stamp csv_ok one_true_table
                (Some ["group"]) None (Some "check_no_duplicate") None None
                None)
     <> Ok (Some true).
Proof.
  split; [|intro H;
           apply (proj1 (check_no_duplicate_True_iff leading_draw a_stamp
                           csv_ok one_true_table (Some ["group"]) None
                           (Some "check_no_duplicate") None None None
                           ltac:(discriminate) eq_refl) H);
           exists 0%nat, 1%nat, [VInt 1; VInt 10], [VBool true; VInt 10];
           repeat split; discriminate].
  exact (proj1 (check_no_duplicate_True_iff leading_draw a_stamp csv_ok
                  ids_table (Some ["id"]) None (Some "check_no_duplicate")
                  None None None ltac:(discriminate) eq_refl) eq_refl).
Defined.

Lemma sum_cons (b : bool) (l : list bool) :
  sum (b :: l) = ((if b then 1 else 0) + sum l)%nat.
Proof. unfold sum. now destruct b. Qed.

Lemma flagged_at_least (keys l : list (list value)) (k : list value) :
  (2 <= count_occ key_eq_dec keys k)%nat ->
  (count_occ key_eq_dec l k
   <= sum (map (fun k' => (2 <=? count_occ key_eq_dec keys k')%nat) l))%nat.
Proof.
  intro H. apply Nat.leb_le in H.
  induction l as [|x l IH]; [simpl; lia|].
  cbn [map count_occ]. rewrite sum_cons.
  destruct (key_eq_dec x k) as [->|N].
  - rewrite H. lia.
  - destruct (2 <=? count_occ key_eq_dec keys x)%nat; lia.
Qed.

(** X11. A failing [check_no_duplicate] never reports a single violation:
    every row of a duplicated combination is counted, so the count in the
    FAIL message is two or more. *)
Theorem check_no_duplicate_counts_at_least_two
    (pd_sample : DataFrame -> Z -> option Z -> result DataFrame)
    (now_stamp : string)
    (to_csv : string -> DataFrame -> bool -> result unit)
    (df : DataFrame) (cols : option (list string))
    (df_desc inspector_title inspection_detail : option string)
    (logger : option Logger) (fail_sampler : option FailSampler)
    (dup : list bool) :
  duplicated df cols = Ok dup ->
  any dup = true ->
  (2 <= sum dup)%nat
  /\ In (log_event logger ERROR
           (make_log_msg inspector_title (Some "FAIL")
              (Some ("Duplicates found in cols " ++ str_opt_list cols
                     ++ count_suffix (sum dup))) df_desc "::"))
        (trace (check_no_duplicate pd_sample now_stamp to_csv df cols df_desc
                  inspector_title inspection_detail logger fail_sampler)).
Proof.
  intros D A. split.
  - unfold duplicated in D.
    destruct (df_empty df);
      [injection D as <-; discriminate|].
    destruct (missing_label df (subset_labels df cols)); [discriminate|].
    destruct (subset_labels df cols) as [|x xs]; [discriminate|].
    injection D as <-.
    apply any_duplicated_iff in A as (k & Hk).
    exact (Nat.le_trans _ _ _ Hk
             (flagged_at_least _ (canon_keys df (x :: xs)) k Hk)).
  - unfold check_no_duplicate. rewrite D, bind_lift_Ok, A. cbn [negb].
    rewrite log_or_print_event, bind_emit. left. reflexivity.
Qed.

Lemma check_no_duplicate_counts_at_least_two_witness :
  (2 <= sum [true; true; false])%nat
  /\ In (Print "check_no_duplicate::FAIL::Duplicates found in cols ['a', 'b'] 2 violations")
        (trace (check_no_duplicate leading_draw a_stamp csv_ok pairs_table
                  (Some ["a"; "b"]) None (Some "check_no_duplicate") None
                  None None)).
Proof.
  exact (check_no_duplicate_counts_at_least_two leading_draw a_stamp csv_ok
           pairs_table (Some ["a"; "b"]) None (Some "check_no_duplicate")
           None None None [true; true; false] eq_refl eq_refl).
Defined.

(** ** The inspectors, continued *)

Lemma py_or_idem (o : option string) (default : string) :
  py_or (Some (py_or o default)) default = py_or o default.
Proof.
  simpl. destruct (py_or o default =? "") eqn:E; [|reflexivity].
  apply String.eqb_eq in E. rewrite E.
  destruct o as [s|]; simpl in E; [|exact E].
  destruct (s =? "") eqn:S; [exact E|].
  apply String.eqb_neq in S. contradiction.
Qed.

(** X12. A [ColumnFormatInspector] behaves as the direct call of
    [check_col_format] with the arguments it was built with: the default
    detail its constructor fills in is the one the function would have
    chosen itself. *)
Theorem ColumnFormatInspector_inspect_direct
    (pd_sample : DataFrame -> Z -> option Z -> result DataFrame)
    (now_stamp : string)
    (to_csv : string -> DataFrame -> bool -> result unit)
    (na_text : option string)
    (col : string) (rx : regex)
    (a_title a_detail : option string) (lg : option Logger)
    (sampler : option FailSampler) (df : DataFrame)
    (df_desc : option string) :
  ColumnFormatInspector_inspect pd_sample now_stamp to_csv na_text
    (ColumnFormatInspector_init col rx a_title a_detail lg sampler)
    df df_desc
  = check_col_format pd_sample now_stamp to_csv na_text df col rx df_desc
      a_title a_detail
      lg sampler.
Proof.
  unfold ColumnFormatInspector_inspect, ColumnFormatInspector_init,
    check_col_format.
  cbn [cf_base cf_check_col cf_regex title detail logger fail_sampler].
  rewrite py_or_idem. reflexivity.
Qed.

(** X13. A [GroupAggregateInspector] behaves as the direct call of
    [check_groupby_agg] with the name of the aggregation inferred
    whenever the function has a [__name__]: the [agg_func_name] given to
    the constructor is used only for a function without a name, whereas
    the check function called directly honours an explicit name. *)
Theorem GroupAggregateInspector_inspect_direct
    (pd_sample : DataFrame -> Z -> option Z -> result DataFrame)
    (now_stamp : string)
    (to_csv : string -> DataFrame -> bool -> result unit)
    (tolerance : Type)
    (np_isclose : tolerance -> value -> value -> bool)
    (by_ : labels) (check_col : option string) (agg_func : agg_function)
    (desired_agg_val : value) (almost_equal : bool)
    (agg_func_name : string) (compare_tolerance : tolerance)
    (a_title a_detail : option string) (lg : option Logger)
    (sampler : option FailSampler) (df : DataFrame)
    (df_desc : option string) :
  GroupAggregateInspector_inspect pd_sample now_stamp to_csv tolerance
      np_isclose
    (GroupAggregateInspector_init tolerance by_ check_col agg_func
       desired_agg_val almost_equal agg_func_name compare_tolerance
       a_title a_detail lg sampler)
    df df_desc
  = check_groupby_agg pd_sample now_stamp to_csv tolerance np_isclose df by_
      check_col agg_func desired_agg_val almost_equal
      (match fn_name agg_func with
       | Some _ => "infer"
       | None => agg_func_name
       end)
      compare_tolerance df_desc a_title a_detail lg sampler.
Proof.
  unfold GroupAggregateInspector_inspect, GroupAggregateInspector_init,
    check_groupby_agg.
  cbn [ga_base ga_by ga_check_col ga_agg_func ga_desired_agg_val
       ga_almost_equal ga_agg_func_name ga_compare_tolerance
       title detail logger fail_sampler].
  destruct (fn_name agg_func) as [n|].
  - replace (if n =? "infer" then n else n) with n
      by (now destruct (n =? "infer")).
    cbn [String.eqb Ascii.eqb Bool.eqb]. rewrite py_or_idem. reflexivity.
  - rewrite py_or_idem. reflexivity.
Qed.

(** ** The fail sampler, continued *)

(** X14. A sampler built with [head] or [tail] in any capitalisation
    samples as that method: on a mask as long as the table and with a
    positive size [N] it returns the first, respectively the last, [N]
    flagged rows. *)
Theorem FailSampler_any_case
    (pd_sample : DataFrame -> Z -> option Z -> result DataFrame)
    (dir : string) (filename : option string) (method : string)
    (N : Z) (seed : option Z) (df : DataFrame) (mask : list bool) :
  List.length mask = List.length (data df) ->
  (0 < N)%Z ->
  (lower method = "head" ->
     exists self,
       FailSampler_init dir filename method (Some N) seed = Ok self
       /\ take_sample pd_sample self df mask
          = Ok (mkDataFrame (columns df)
                  (firstn (Z.to_nat N) (masked_rows (data df) mask))))
  /\ (lower method = "tail" ->
        exists self,
          FailSampler_init dir filename method (Some N) seed = Ok self
          /\ take_sample pd_sample self df mask
             = Ok (mkDataFrame (columns df)
                     (last_n (Z.to_nat N) (masked_rows (data df) mask)))).
Proof.
  intros Hlen HN.
  assert ((N =? 0)%Z = false) as Z0 by lia.
  split; intro L; unfold FailSampler_init; rewrite L; cbn [existsb negb
    sample_methods String.eqb Ascii.eqb Bool.eqb orb]; eexists;
    (split; [reflexivity|]); unfold take_sample;
    rewrite (boolean_index_fits df mask Hlen);
    cbn [sample_size sample_method no_sample_size]; rewrite Z0;
    cbn [String.eqb Ascii.eqb Bool.eqb].
  - unfold head. cbn [data columns].
    destruct (0 <=? N)%Z eqn:P; [reflexivity | lia].
  - unfold tail. cbn [data columns]. rewrite Z0.
    destruct (0 <? N)%Z eqn:P; [|lia]. now rewrite skipn_last_n.
Qed.

Lemma FailSampler_any_case_witness :
  exists self,
    FailSampler_init "fail_samples" None "Tail" (Some 2%Z) None = Ok self
    /\ take_sample leading_draw self ids_table [true; true; true]
       = Ok (mkDataFrame ["id"] [[VStr "A2"]; [VStr "B1"]]).
Proof.
  exact (proj2 (FailSampler_any_case leading_draw "fail_samples" None "Tail"
                  2%Z None ids_table [true; true; true] eq_refl eq_refl)
           eq_refl).
Defined.

(** X15. With method [head] or [tail], a size that is at least the number
    of flagged rows is no error: [take_sample] returns all the flagged
    rows. *)
Theorem take_sample_small_population
    (pd_sample : DataFrame -> Z -> option Z -> result DataFrame)
    (self : FailSampler) (df : DataFrame) (mask : list bool) (N : Z) :
  List.length mask = List.length (data df) ->
  sample_size self = Some N ->
  sample_method self <> "random" ->
  (0 < N)%Z ->
  (Z.of_nat (List.length (masked_rows (data df) mask)) <= N)%Z ->
  take_sample pd_sample self df mask
  = Ok (mkDataFrame (columns df) (masked_rows (data df) mask)).
Proof.
  intros Hlen Hs Hm HN Hle. unfold take_sample.
  rewrite (boolean_index_fits df mask Hlen), Hs.
  cbn [no_sample_size].
  destruct (N =? 0)%Z eqn:Z0; [lia|].
  apply String.eqb_neq in Hm. rewrite Hm.
  destruct (sample_method self =? "tail").
  - unfold tail. cbn [data columns]. rewrite Z0.
    destruct (0 <? N)%Z eqn:P; [|lia].
    replace (List.length (masked_rows (data df) mask) - Z.to_nat N)%nat
      with 0%nat by lia.
    reflexivity.
  - unfold head. cbn [data columns].
    destruct (0 <=? N)%Z eqn:P; [|lia].
    rewrite firstn_all2; [reflexivity | lia].
Qed.

Lemma take_sample_small_population_witness :
  take_sample leading_draw head_sampler ids_table [false; false; true]
  = Ok (mkDataFrame ["id"] [[VStr "B1"]]).
Proof.
  apply (take_sample_small_population leading_draw head_sampler ids_table
           [false; false; true] 2%Z eq_refl eq_refl);
    [discriminate | reflexivity | discriminate].
Defined.

(** ** The message formatter, continued *)

(** X16. The separator is not escaped inside a field, so a message does
    not determine its fields: a title that holds the separator yields the
    message of the two titles it splits into. *)
Theorem make_log_msg_separator_ambiguity (a b c sep : string) :
  a <> "" -> b <> "" -> c <> "" ->
  make_log_msg (Some (a ++ sep ++ b)) (Some c) None None sep
  = make_log_msg (Some a) (Some b) (Some c) None sep.
Proof.
  intros Ha Hb Hc.
  destruct a as [|a0 a]; [contradiction|].
  destruct b as [|b0 b]; [contradiction|].
  destruct c as [|c0 c]; [contradiction|].
  unfold make_log_msg. simpl. now rewrite !append_assoc.
Qed.

Lemma make_log_msg_separator_ambiguity_witness :
  make_log_msg (Some "load::orders") (Some "FAIL") None None "::"
  = make_log_msg (Some "load") (Some "orders") (Some "FAIL") None "::".
Proof.
  apply (make_log_msg_separator_ambiguity "load" "orders" "FAIL" "::");
    discriminate.
Defined.

(** ** The format check, end to end *)

Lemma select_map_filter (g : list value -> bool)
    (rows : list (list value)) :
  select rows (map g rows) = filter g rows.
Proof.
  induction rows as [|r rows IH]; simpl; [reflexivity|].
  destruct (g r); now rewrite IH.
Qed.

Lemma all_map_no_failure {A} (f : A -> bool) (l : list A) :
  all (map f l) = true -> filter (fun x => negb (f x)) l = [].
Proof.
  unfold all. induction l as [|x l IH]; simpl; [reflexivity|].
  destruct (f x); simpl; [exact IH | discriminate].
Qed.

(** X17. A failing [check_col_format] with a sampler that has no sample
    size does this, in this order: it logs the FAIL message with the
    number of rows whose cell does not match, calls the sampler with the
    mask of those rows and the message rebuilt with a space as file name,
    and hands [to_csv], without row index, exactly the rows that do not
    match, in row order.  If [to_csv] writes the file the call returns
    [False]; if it raises, the call raises the same exception. *)
Theorem check_col_format_writes_failures
    (pd_sample : DataFrame -> Z -> option Z -> result DataFrame)
    (now_stamp : string)
    (to_csv : string -> DataFrame -> bool -> result unit)
    (na_text : option string)
    (df : DataFrame) (col : string) (rx : regex)
    (df_desc inspector_title inspection_detail : option string)
    (logger : option Logger) (s : FailSampler) :
  has_col df col = true ->
  non_matching na_text df col rx <> [] ->
  no_sample_size (sample_size s) = true ->
  let detail :=
    py_or inspection_detail
      ("Column " ++ col ++ " vs. pattern " ++ pattern rx)
    ++ count_suffix (List.length (non_matching na_text df col rx)) in
  let filename :=
    make_log_msg inspector_title (Some "FAIL") (Some detail) df_desc " " in
  let failures := mkDataFrame (columns df) (non_matching na_text df col rx) in
  let logged :=
    log_event logger ERROR
      (make_log_msg inspector_title (Some "FAIL") (Some detail) df_desc
         "::") in
  let called :=
    WriteSample df
      (map (fun row =>
              negb (str_match rx (astype_str na_text (cell df col row))))
         (data df))
      (Some filename) (Some false) in
  check_col_format pd_sample now_stamp to_csv na_text df col rx df_desc
    inspector_title inspection_detail logger (Some s)
  = match to_csv (path_join (save_dir s) filename) failures false with
    | Ok _ =>
        ([logged; called;
          ToCsv (path_join (save_dir s) filename) failures false],
         Ok (Some false))
    | Raise e => ([logged; called], Raise e)
    end.
Proof.
  intros Hcol Hfail Hsize detail filename failures logged called.
  subst detail filename failures logged called.
  unfold check_col_format, getitem.
  rewrite Hcol, bind_ret, bind_lift_Ok, map_map.
  set (f := fun row => str_match rx (astype_str na_text (cell df col row))).
  destruct (all (map f (data df))) eqn:A.
  { apply all_map_no_failure in A. contradiction. }
  rewrite sum_invert_map. fold (non_matching na_text df col rx).
  rewrite log_or_print_event, bind_emit, sampling_step.
  unfold take_sample, boolean_index, invert.
  rewrite !length_map, Nat.eqb_refl, Hsize, map_map.
  rewrite select_map_filter. fold (non_matching na_text df col rx).
  rewrite sample_path_named
    by (apply make_log_msg_nonempty; discriminate).
  cbn [csv_index].
  destruct (to_csv _ _ false) as [[]|e]; reflexivity.
Qed.

Lemma check_col_format_writes_failures_witness :
  check_col_format leading_draw a_stamp csv_ok None_text gaps_table "b"
    lower_letters None (Some "check_col_format") None None
    (Some whole_sampler)
  = ([Print "check_col_format::FAIL::Column b vs. pattern ^[a-z]+$ 1 violations";
      WriteSample gaps_table [false; true; false]
        (Some "check_col_format FAIL Column b vs. pattern ^[a-z]+$ 1 violations")
        (Some false);
      ToCsv "fail_samples/check_col_format FAIL Column b vs. pattern ^[a-z]+$ 1 violations"
        (mkDataFrame ["a"; "b"] [[VInt 2; VNaN]]) false],
     Ok (Some false))
  /\ check_col_format leading_draw a_stamp csv_no_dir None_text ids_table "id"
       letter_A_digit None (Some "check_col_format") None None
       (Some whole_sampler)
     = ([Print "check_col_format::FAIL::Column id vs. pattern ^A\d$ 1 violations";
         WriteSample ids_table [false; false; true]
           (Some "check_col_format FAIL Column id vs. pattern ^A\d$ 1 violations")
           (Some false)],
        Raise (OSError "Cannot save file into a non-existent directory")).
Proof.
  split.
  - apply (check_col_format_writes_failures leading_draw a_stamp csv_ok
             None_text gaps_table "b" lower_letters None
             (Some "check_col_format") None None whole_sampler eq_refl);
      [discriminate | reflexivity].
  - apply (check_col_format_writes_failures leading_draw a_stamp csv_no_dir
             None_text ids_table "id" letter_A_digit None
             (Some "check_col_format") None None whole_sampler eq_refl);
      [discriminate | reflexivity].
Defined.

(** ** The group checks: what is sampled *)

(** X18. What [check_groupby_agg] hands to the sampler is the aggregate
    result, one row per group, not the checked table: the rows flagged
    are the groups whose aggregate fails the comparison, and no [index]
    argument is passed, so the group keys are written with the sample. *)
Theorem check_groupby_agg_samples_groups
    (pd_sample : DataFrame -> Z -> option Z -> result DataFrame)
    (now_stamp : string)
    (to_csv : string -> DataFrame -> bool -> result unit)
    (tolerance : Type)
    (np_isclose : tolerance -> value -> value -> bool)
    (df : DataFrame) (by_ : labels) (check_col : option string)
    (agg_func : agg_function) (desired_agg_val : value)
    (almost_equal : bool) (agg_func_name : string)
    (compare_tolerance : tolerance)
    (df_desc inspector_title inspection_detail : option string)
    (logger : option Logger) (fail_sampler : option FailSampler)
    (df' : DataFrame) (mask : list bool) (filename : option string)
    (index : option bool) :
  In (WriteSample df' mask filename index)
     (trace (check_groupby_agg pd_sample now_stamp to_csv tolerance np_isclose
         df
               by_ check_col agg_func desired_agg_val almost_equal
               agg_func_name compare_tolerance df_desc inspector_title
               inspection_detail logger fail_sampler)) ->
  exists g,
    group_and_aggregate df by_ check_col agg_func = Ok g
    /\ df' = mkDataFrame (label_list by_ ++ [str_opt check_col])%list
               (map (fun kv => (fst kv ++ [snd kv])%list) g)
    /\ mask = map (fun kv =>
                     negb (if almost_equal
                           then np_isclose compare_tolerance (snd kv)
                                  desired_agg_val
                           else py_eq (snd kv) desired_agg_val)) g
    /\ index = None.
Proof.
  unfold check_groupby_agg.
  destruct (group_and_aggregate df by_ check_col agg_func) as [g|e];
    [|intros []].
  rewrite bind_lift_Ok.
  destruct (all _); rewrite log_or_print_event, bind_emit;
    cbn [trace fst]; intros [H|H].
  - destruct logger; discriminate.
  - destruct H.
  - destruct logger; discriminate.
  - apply sampling_call_inv in H as (-> & -> & _ & ->).
    exists g. unfold invert. rewrite map_map. auto.
Qed.

Lemma check_groupby_agg_samples_groups_witness :
  exists g,
    group_and_aggregate groups_table (Label "group") (Some "value") agg_sum
    = Ok g
    /\ mkDataFrame ["group"; "value"] [[VInt 1; VInt 20]; [VInt 2; VInt 5]]
       = mkDataFrame (label_list (Label "group") ++ [str_opt (Some "value")])%list
           (map (fun kv => (fst kv ++ [snd kv])%list) g)
    /\ [false; true]
       = map (fun kv => negb (py_eq (snd kv) (VInt 20))) g
    /\ @None bool = None.
Proof.
  apply (check_groupby_agg_samples_groups leading_draw a_stamp csv_ok unit
           exact_isclose groups_table (Label "group") (Some "value") agg_sum
           (VInt 20) false "infer" tt None None None None
           (Some whole_sampler)
           (mkDataFrame ["group"; "value"]
              [[VInt 1; VInt 20]; [VInt 2; VInt 5]])
           [false; true]
           (Some "Group Aggregate Check FAIL value grouped by group aggregated by sum compared with 20 1 violations")
           None).
  right. left. reflexivity.
Defined.
